(** * ReactPhysics3D: capsule collision shape and dynamics world

    A shallow embedding of [CapsuleShape.cpp] (the capsule's constructor, its
    two support functions and its local inertia tensor) and of the inline
    part of [engine/DynamicsWorld.h] (start, stop, the setters, the read
    accessors, the iterators, the loop over the bodies and
    updateOverlappingPair).  The parts of the library that these files use and that are
    kept elsewhere (the vector type, the timer, the bodies, and the body of
    [DynamicsWorld::update]) follow the design specification of the library;
    each such definition says so.

    The scalar type of the library is [decimal], a build-time choice between
    [float] and [double].  The embedding keeps that choice open: every
    function is written once, over an interface [Decimal] of the arithmetic
    the code uses, and is then read in two ways:
    - over IEEE binary64 (Rocq's primitive floats), the arithmetic of the
      program, where it runs and where rounding, overflow, underflow and NaN
      show;
    - over the real numbers, the idealised arithmetic without rounding.
    A statement over the reals is a statement about the program only where
    the code selects a branch or returns stored values; the statements that
    need exact arithmetic (distances, strict positivity) are marked as
    such. *)

From Stdlib Require Import Floats ZArith QArith Reals Lra Psatz.
From stdpp Require Import gmap.

(** ** The scalar type [decimal] *)

Class Decimal (D : Type) := {
  (** [decimal(q)]: a literal of the source, converted to the scalar type *)
  decimal : Q -> D;
  dadd : D -> D -> D;
  dmul : D -> D -> D;
  ddiv : D -> D -> D;
  dopp : D -> D;
  dsqrt : D -> D;
  (** [a > b] and [a >= b] *)
  dgtb : D -> D -> bool;
  dgeb : D -> D -> bool;
  (** [MACHINE_EPSILON] of configuration.h, the epsilon of the scalar type *)
  MACHINE_EPSILON : D
}.

Declare Scope decimal_scope.
Delimit Scope decimal_scope with dec.
Notation "a + b" := (dadd a b) : decimal_scope.
Notation "a * b" := (dmul a b) : decimal_scope.
Notation "a / b" := (ddiv a b) : decimal_scope.
Notation "- a" := (dopp a) : decimal_scope.
Notation "a >? b" := (dgtb a b) (at level 70, no associativity) : decimal_scope.
Notation "a >=? b" := (dgeb a b) (at level 70, no associativity) : decimal_scope.

(** *** binary64 *)

Definition float_of_Z (n : Z) : float :=
  match n with
  | Z0 => PrimFloat.of_uint63 (Uint63.of_Z 0)
  | Zpos _ => PrimFloat.of_uint63 (Uint63.of_Z n)
  | Zneg p => PrimFloat.opp (PrimFloat.of_uint63 (Uint63.of_Z (Zpos p)))
  end.

(** A literal [n/d] whose numerator and denominator are exact in binary64 is
    the correctly rounded quotient, which is what the compiler stores. *)
Definition float_of_Q (q : Q) : float :=
  PrimFloat.div (float_of_Z (Qnum q)) (float_of_Z (Zpos (Qden q))).

Definition binary64_epsilon : float := Z.ldexp PrimFloat.one (-52).

#[export] Instance binary64_decimal : Decimal float := {|
  decimal := float_of_Q;
  dadd := PrimFloat.add;
  dmul := PrimFloat.mul;
  ddiv := PrimFloat.div;
  dopp := PrimFloat.opp;
  dsqrt := PrimFloat.sqrt;
  dgtb := fun a b => PrimFloat.ltb b a;
  dgeb := fun a b => PrimFloat.leb b a;
  MACHINE_EPSILON := binary64_epsilon
|}.

(** *** exact real arithmetic, for a given positive epsilon *)

Definition Rgtb (a b : R) : bool := if Rgt_dec a b then true else false.
Definition Rgeb (a b : R) : bool := if Rge_dec a b then true else false.

Definition real_decimal (eps : R) : Decimal R := {|
  decimal := Q2R;
  dadd := Rplus;
  dmul := Rmult;
  ddiv := Rdiv;
  dopp := Ropp;
  dsqrt := R_sqrt.sqrt;
  dgtb := Rgtb;
  dgeb := Rgeb;
  MACHINE_EPSILON := eps
|}.

(** ** Aborting assertions

    [assert] of <cassert> stops the program when its condition is false: a
    computation that may abort returns [None]. *)

Definition assert (b : bool) : option unit := if b then Some tt else None.

(** ** Vector3 and Matrix3x3 (mathematics library)

    Modelled from the spec: the two types are declared in mathematics/, which
    is not part of the sources; a vector has three components and a matrix
    nine entries. *)

Record Vector3 (D : Type) := mkVector3 { x : D; y : D; z : D }.
Arguments mkVector3 {D} _ _ _.
Arguments x {D} _.
Arguments y {D} _.
Arguments z {D} _.

Record Matrix3x3 (D : Type) := mkMatrix3x3 {
  m00 : D; m01 : D; m02 : D;
  m10 : D; m11 : D; m12 : D;
  m20 : D; m21 : D; m22 : D
}.
Arguments mkMatrix3x3 {D} _ _ _ _ _ _ _ _ _.
Arguments m00 {D} _.
Arguments m01 {D} _.
Arguments m02 {D} _.
Arguments m10 {D} _.
Arguments m11 {D} _.
Arguments m12 {D} _.
Arguments m20 {D} _.
Arguments m21 {D} _.
Arguments m22 {D} _.

Module Vector3.
Section Ops.
Context {D : Type} {arithmetic : Decimal D}.
Local Open Scope decimal_scope.

(** Modelled from the spec: Vector3::lengthSquare (mathematics/Vector3.h is
    not part of the sources), the squared norm |d|². *)
Definition lengthSquare (v : Vector3 D) : D :=
  x v * x v + y v * y v + z v * z v.

(** Modelled from the spec: Vector3::length, the norm |d|. *)
Definition length (v : Vector3 D) : D := dsqrt (lengthSquare v).

(** Modelled from the spec: Vector3::getUnit, "normalize d": every
    component divided by the norm. *)
Definition getUnit (v : Vector3 D) : Vector3 D :=
  let lengthVector := length v in
  mkVector3 (x v / lengthVector) (y v / lengthVector) (z v / lengthVector).

(** Modelled from the spec: Vector3::dot, the dot product. *)
Definition dot (v w : Vector3 D) : D :=
  x v * x w + y v * y w + z v * z w.

(** Modelled from the spec: operator+ on Vector3, componentwise. *)
Definition add (v w : Vector3 D) : Vector3 D :=
  mkVector3 (x v + x w) (y v + y w) (z v + z w).

(** Modelled from the spec: operator* of a Vector3 and a scalar
    ("unitDir·r"). *)
Definition scale (v : Vector3 D) (k : D) : Vector3 D :=
  mkVector3 (x v * k) (y v * k) (z v * k).

End Ops.
End Vector3.

Module Matrix3x3.
Section Ops.
Context {D : Type}.

(** Modelled from the spec: Matrix3x3::setAllValues overwrites the nine
    entries, row by row. *)
Definition setAllValues (_ : Matrix3x3 D) (a1 a2 a3 b1 b2 b3 c1 c2 c3 : D)
  : Matrix3x3 D :=
  mkMatrix3x3 a1 a2 a3 b1 b2 b3 c1 c2 c3.
End Ops.
End Matrix3x3.

Notation "v +v w" := (Vector3.add v w)
  (at level 50, left associativity) : decimal_scope.
Notation "v *s k" := (Vector3.scale v k)
  (at level 40, left associativity) : decimal_scope.

(** ** CapsuleShape *)

(** Modelled from the spec: the kinds of collision shape (§3: "sphere,
    capsule, box, convex hull"); the constructor below names CAPSULE. *)
Inductive CollisionShapeType := SPHERE | CAPSULE | BOX | CONVEX_HULL.

(** Modelled from the spec: the base class CollisionShape (its header is not
    part of the sources) keeps the kind of the shape and its margin. *)
Record CollisionShape (D : Type) := mkCollisionShape {
  mType : CollisionShapeType;
  mMargin : D
}.
Arguments mkCollisionShape {D} _ _.
Arguments mType {D} _.
Arguments mMargin {D} _.

Record CapsuleShape (D : Type) := mkCapsuleShape {
  shape : CollisionShape D;
  mRadius : D;
  mHalfHeight : D
}.
Arguments mkCapsuleShape {D} _ _ _.
Arguments shape {D} _.
Arguments mRadius {D} _.
Arguments mHalfHeight {D} _.

Module CapsuleShape.
Section Code.
Context {D : Type} {arithmetic : Decimal D}.
Local Open Scope decimal_scope.

(** CapsuleShape::CapsuleShape(radius, height): the member initialisers,
    then the two assertions of the body. *)
Definition new (radius height : D) : option (CapsuleShape D) :=
  let this :=
    mkCapsuleShape (mkCollisionShape CAPSULE radius) radius
                   (height * decimal 0.5) in
  _ ← assert (radius >? decimal 0.0);
  _ ← assert (height >? decimal 0.0);
  Some this.

Definition getLocalSupportPointWithMargin
    (this : CapsuleShape D) (direction : Vector3 D) : Vector3 D :=
  if Vector3.lengthSquare direction >=? MACHINE_EPSILON * MACHINE_EPSILON then
    let unitDirection := Vector3.getUnit direction in
    let centerTopSphere :=
      mkVector3 (decimal 0) (mHalfHeight this) (decimal 0) in
    let topSpherePoint := centerTopSphere +v unitDirection *s mRadius this in
    let dotProductTop := Vector3.dot topSpherePoint direction in
    let centerBottomSphere :=
      mkVector3 (decimal 0) (- mHalfHeight this) (decimal 0) in
    let bottomSpherePoint :=
      centerBottomSphere +v unitDirection *s mRadius this in
    let dotProductBottom := Vector3.dot bottomSpherePoint direction in
    if dotProductTop >? dotProductBottom then topSpherePoint
    else bottomSpherePoint
  else
    mkVector3 (decimal 0) (mRadius this) (decimal 0).

Definition getLocalSupportPointWithoutMargin
    (this : CapsuleShape D) (direction : Vector3 D) : Vector3 D :=
  if y direction >? decimal 0.0 then
    mkVector3 (decimal 0) (mHalfHeight this) (decimal 0)
  else
    mkVector3 (decimal 0) (- mHalfHeight this) (decimal 0).

Definition computeLocalInertiaTensor
    (this : CapsuleShape D) (tensor : Matrix3x3 D) (mass : D) : Matrix3x3 D :=
  let height := mHalfHeight this + mHalfHeight this in
  let radiusSquare := mRadius this * mRadius this in
  let heightSquare := height * height in
  let radiusSquareDouble := radiusSquare + radiusSquare in
  let factor1 := decimal 2.0 * mRadius this
                 / (decimal 4.0 * mRadius this + decimal 3.0 * height) in
  let factor2 := decimal 3.0 * height
                 / (decimal 4.0 * mRadius this + decimal 3.0 * height) in
  let sum1 := decimal 0.4 * radiusSquareDouble in
  let sum2 := decimal 0.75 * height * mRadius this
              + decimal 0.5 * heightSquare in
  let sum3 := decimal 0.25 * radiusSquare
              + decimal (1.0 / 12.0) * heightSquare in
  let IxxAndzz := factor1 * mass * (sum1 + sum2) + factor2 * mass * sum3 in
  let Iyy := factor1 * mass * sum1
             + factor2 * mass * decimal 0.25 * radiusSquareDouble in
  Matrix3x3.setAllValues tensor
    IxxAndzz (decimal 0.0) (decimal 0.0)
    (decimal 0.0) Iyy (decimal 0.0)
    (decimal 0.0) (decimal 0.0) IxxAndzz.

(** CapsuleShape::CapsuleShape(const CapsuleShape& shape), the private
    copy-constructor: the base part and the two members are copied; nothing
    is asserted. *)
Definition copy (other : CapsuleShape D) : CapsuleShape D :=
  mkCapsuleShape
    (mkCollisionShape (mType (shape other)) (mMargin (shape other)))
    (mRadius other) (mHalfHeight other).
End Code.
End CapsuleShape.

(** ** DynamicsWorld *)

(** [uint]: an unsigned 32-bit integer; a container size converted to it
    wraps around. *)
Definition uint := Z.
Definition uint_of_size (n : nat) : uint := (Z.of_nat n mod 2 ^ 32)%Z.

(** A [RigidBody*], a [Constraint*]: the address of an object the world owns. *)
Definition pointer := positive.

(** [bodyindex], the identifier of a body ([luint] in configuration.h). *)
Definition bodyindex := N.

(** Modelled from the spec: the orientation part of a transform
    (mathematics/Quaternion.h is not part of the sources). *)
Record Quaternion (D : Type) := mkQuaternion { qx : D; qy : D; qz : D; qw : D }.
Arguments mkQuaternion {D} _ _ _ _.

(** Modelled from the spec: Transform, "position + orientation" (§3). *)
Record Transform (D : Type) := mkTransform {
  mPosition : Vector3 D;
  mOrientation : Quaternion D
}.
Arguments mkTransform {D} _ _.
Arguments mPosition {D} _.
Arguments mOrientation {D} _.

(** Modelled from the spec: RigidBody (body/RigidBody.h is not part of the
    sources), with the fields of §3: mass, inverse mass, local inverse inertia
    tensor, transform, linear and angular velocity, the sleeping flag with its
    low-motion time, whether the body is dynamic, and the per-step "has moved"
    flag. *)
Record RigidBody (D : Type) := mkRigidBody {
  mMass : D;
  mMassInverse : D;
  mInertiaTensorLocalInverse : Matrix3x3 D;
  mTransform : Transform D;
  mLinearVelocity : Vector3 D;
  mAngularVelocity : Vector3 D;
  mIsMotionEnabled : bool;
  mIsSleeping : bool;
  mSleepTime : D;
  mHasMoved : bool
}.
Arguments mkRigidBody {D} _ _ _ _ _ _ _ _ _ _.
Arguments mMass {D} _.
Arguments mMassInverse {D} _.
Arguments mInertiaTensorLocalInverse {D} _.
Arguments mTransform {D} _.
Arguments mLinearVelocity {D} _.
Arguments mAngularVelocity {D} _.
Arguments mIsMotionEnabled {D} _.
Arguments mIsSleeping {D} _.
Arguments mSleepTime {D} _.
Arguments mHasMoved {D} _.

(** Modelled from the spec: one point of a contact manifold (§3). *)
Record ContactPoint (D : Type) := mkContactPoint {
  mLocalPointOnBody1 : Vector3 D;
  mLocalPointOnBody2 : Vector3 D;
  mNormal : Vector3 D;
  mPenetrationDepth : D;
  mPenetrationImpulse : D;
  mFrictionImpulse1 : D;
  mFrictionImpulse2 : D;
  mFeatureId : N
}.
Arguments mkContactPoint {D} _ _ _ _ _ _ _ _.

(** Modelled from the spec: ContactManifold (§3), the pair of bodies and the
    ordered, bounded sequence of its contact points. *)
Record ContactManifold (D : Type) := mkContactManifold {
  mBody1 : pointer;
  mBody2 : pointer;
  mContactPoints : list (ContactPoint D)
}.
Arguments mkContactManifold {D} _ _ _.
Arguments mBody1 {D} _.
Arguments mBody2 {D} _.
Arguments mContactPoints {D} _.

(** Modelled from the spec: one constraint row (§3): Jacobian, bias, impulse
    limits and the accumulated impulse. *)
Record ConstraintRow (D : Type) := mkConstraintRow {
  mJacobian : list D;
  mBias : D;
  mLowerLimit : D;
  mUpperLimit : D;
  mImpulse : D
}.
Arguments mkConstraintRow {D} _ _ _ _ _.

(** Modelled from the spec: Constraint, a joint (§3): two bodies and a fixed
    number of rows. *)
Record Constraint (D : Type) := mkConstraint {
  mJointBody1 : pointer;
  mJointBody2 : pointer;
  mRows : list (ConstraintRow D)
}.
Arguments mkConstraint {D} _ _ _.
Arguments mJointBody1 {D} _.
Arguments mJointBody2 {D} _.
Arguments mRows {D} _.

(** Modelled from the spec: Timer (engine/Timer.h is not part of the sources),
    the external timing driver: the fixed time step given at construction and
    whether the simulation is running. *)
Record Timer (D : Type) := mkTimer {
  mTimeStep : D;
  mIsRunning : bool
}.
Arguments mkTimer {D} _ _.
Arguments mTimeStep {D} _.
Arguments mIsRunning {D} _.

(** Modelled from the spec: the configuration that ContactSolver keeps (§6):
    iteration count, split impulse, friction at the manifold centre. *)
Record ContactSolver := mkContactSolver {
  mNbIterations : uint;
  mIsSplitImpulseActive : bool;
  mIsSolveFrictionAtContactManifoldCenterActive : bool
}.

(** Modelled from the spec: the configuration that ConstraintSolver keeps
    (§6): error correction. *)
Record ConstraintSolver := mkConstraintSolver {
  mIsErrorCorrectionActive : bool
}.

(** The attributes of class DynamicsWorld, in the order of the header. The
    set of body pointers is kept with the bodies they point to. *)
Record DynamicsWorld (D : Type) := mkDynamicsWorld {
  mTimer : Timer D;
  mContactSolver : ContactSolver;
  mConstraintSolver : ConstraintSolver;
  mIsDeactivationActive : bool;
  mRigidBodies : gmap pointer (RigidBody D);
  mContactManifolds : list (ContactManifold D);
  mJoints : gmap pointer (Constraint D);
  mConstrainedBodies : gset pointer;
  mGravity : Vector3 D;
  mIsGravityOn : bool;
  mConstrainedLinearVelocities : list (Vector3 D);
  mConstrainedAngularVelocities : list (Vector3 D);
  mMapBodyToConstrainedVelocityIndex : gmap pointer nat
}.
Arguments mkDynamicsWorld {D} _ _ _ _ _ _ _ _ _ _ _ _ _.
Arguments mTimer {D} _.
Arguments mContactSolver {D} _.
Arguments mConstraintSolver {D} _.
Arguments mIsDeactivationActive {D} _.
Arguments mRigidBodies {D} _.
Arguments mContactManifolds {D} _.
Arguments mJoints {D} _.
Arguments mConstrainedBodies {D} _.
Arguments mGravity {D} _.
Arguments mIsGravityOn {D} _.
Arguments mConstrainedLinearVelocities {D} _.
Arguments mConstrainedAngularVelocities {D} _.
Arguments mMapBodyToConstrainedVelocityIndex {D} _.

(** Modelled from the spec: the collaborators of the world that the
    specification keeps at its boundary (§1, §4.2, §5): collision detection,
    the two solvers, the integration of an orientation, the motion test and
    the sleeping rule. Execution is single-threaded and deterministic (§5):
    each is a function of its arguments. *)
Class Collaborators (D : Type) := {
  (** step 1: the manifolds of the current overlapping pairs, from the bodies
      and the manifolds of the previous step *)
  computeCollisions :
    gmap pointer (RigidBody D) -> list (ContactManifold D) ->
    list (ContactManifold D);
  (** step 5: both solvers, over the constrained-velocity arrays; the
      accumulated impulses stay in the manifolds and joints *)
  solve :
    ContactSolver -> ConstraintSolver -> D ->
    gmap pointer (RigidBody D) -> gmap pointer nat ->
    list (ContactManifold D) -> gmap pointer (Constraint D) ->
    list (Vector3 D) * list (Vector3 D) ->
    list (ContactManifold D) * gmap pointer (Constraint D)
    * (list (Vector3 D) * list (Vector3 D));
  (** step 6: an orientation after [dt] at a given angular velocity *)
  integrateOrientation : Quaternion D -> Vector3 D -> D -> Quaternion D;
  (** step 6: whether the motion between two transforms exceeds epsilon *)
  motionExceedsEpsilon : Transform D -> Transform D -> bool;
  (** step 7: the sleeping rule for one body after a step of [dt] *)
  updateSleeping : D -> RigidBody D -> RigidBody D;
  (** the configuration a new world starts with *)
  defaultContactSolver : ContactSolver;
  defaultConstraintSolver : ConstraintSolver;
  defaultIsGravityOn : bool;
  DEACTIVATION_ENABLED : bool
}.

Module Timer.
Section Code.
Context {D : Type}.

(** Modelled from the spec: Timer::start, the transition to Running (§4.3). *)
Definition start (t : Timer D) : Timer D := mkTimer (mTimeStep t) true.

(** Modelled from the spec: Timer::stop, the transition to Stopped (§4.3). *)
Definition stop (t : Timer D) : Timer D := mkTimer (mTimeStep t) false.

(** Modelled from the spec: Timer::getIsRunning. *)
Definition getIsRunning (t : Timer D) : bool := mIsRunning t.

(** Modelled from the spec: Timer::getTimeStep, the fixed time step. *)
Definition getTimeStep (t : Timer D) : D := mTimeStep t.
End Code.
End Timer.

Module ContactSolver.
(** Modelled from the spec: ContactSolver::setNbIterationsSolver (§6). *)
Definition setNbIterationsSolver (s : ContactSolver) (nbIterations : uint)
  : ContactSolver :=
  mkContactSolver nbIterations (mIsSplitImpulseActive s)
                  (mIsSolveFrictionAtContactManifoldCenterActive s).

(** Modelled from the spec: ContactSolver::setIsSplitImpulseActive (§6). *)
Definition setIsSplitImpulseActive (s : ContactSolver) (isActive : bool)
  : ContactSolver :=
  mkContactSolver (mNbIterations s) isActive
                  (mIsSolveFrictionAtContactManifoldCenterActive s).

(** Modelled from the spec:
    ContactSolver::setIsSolveFrictionAtContactManifoldCenterActive (§6). *)
Definition setIsSolveFrictionAtContactManifoldCenterActive
    (s : ContactSolver) (isActive : bool) : ContactSolver :=
  mkContactSolver (mNbIterations s) (mIsSplitImpulseActive s) isActive.
End ContactSolver.

Module RigidBody.
Section Code.
Context {D : Type}.

(** Modelled from the spec: RigidBody::setHasMoved. *)
Definition setHasMoved (b : RigidBody D) (hasMoved : bool) : RigidBody D :=
  mkRigidBody (mMass b) (mMassInverse b) (mInertiaTensorLocalInverse b)
    (mTransform b) (mLinearVelocity b) (mAngularVelocity b)
    (mIsMotionEnabled b) (mIsSleeping b) (mSleepTime b) hasMoved.

(** Modelled from the spec: RigidBody::setLinearVelocity. *)
Definition setLinearVelocity (b : RigidBody D) (v : Vector3 D) : RigidBody D :=
  mkRigidBody (mMass b) (mMassInverse b) (mInertiaTensorLocalInverse b)
    (mTransform b) v (mAngularVelocity b)
    (mIsMotionEnabled b) (mIsSleeping b) (mSleepTime b) (mHasMoved b).

(** Modelled from the spec: RigidBody::setAngularVelocity. *)
Definition setAngularVelocity (b : RigidBody D) (v : Vector3 D) : RigidBody D :=
  mkRigidBody (mMass b) (mMassInverse b) (mInertiaTensorLocalInverse b)
    (mTransform b) (mLinearVelocity b) v
    (mIsMotionEnabled b) (mIsSleeping b) (mSleepTime b) (mHasMoved b).

(** Modelled from the spec: RigidBody::setTransform. *)
Definition setTransform (b : RigidBody D) (t : Transform D) : RigidBody D :=
  mkRigidBody (mMass b) (mMassInverse b) (mInertiaTensorLocalInverse b)
    t (mLinearVelocity b) (mAngularVelocity b)
    (mIsMotionEnabled b) (mIsSleeping b) (mSleepTime b) (mHasMoved b).
End Code.
End RigidBody.

(** Modelled from the spec: the two states of the world (§4.3). *)
Inductive WorldState := Stopped | Running.

Module DynamicsWorld.
Section Code.
Context {D : Type} {arithmetic : Decimal D} {collaborators : Collaborators D}.
Local Open Scope decimal_scope.

(** *** Assignments to the attributes *)

Definition set_mTimer (w : DynamicsWorld D) (t : Timer D) : DynamicsWorld D :=
  mkDynamicsWorld t (mContactSolver w) (mConstraintSolver w)
    (mIsDeactivationActive w) (mRigidBodies w) (mContactManifolds w)
    (mJoints w) (mConstrainedBodies w) (mGravity w) (mIsGravityOn w)
    (mConstrainedLinearVelocities w) (mConstrainedAngularVelocities w)
    (mMapBodyToConstrainedVelocityIndex w).

Definition set_mContactSolver (w : DynamicsWorld D) (s : ContactSolver)
  : DynamicsWorld D :=
  mkDynamicsWorld (mTimer w) s (mConstraintSolver w)
    (mIsDeactivationActive w) (mRigidBodies w) (mContactManifolds w)
    (mJoints w) (mConstrainedBodies w) (mGravity w) (mIsGravityOn w)
    (mConstrainedLinearVelocities w) (mConstrainedAngularVelocities w)
    (mMapBodyToConstrainedVelocityIndex w).

Definition set_mRigidBodies
    (w : DynamicsWorld D) (bodies : gmap pointer (RigidBody D))
  : DynamicsWorld D :=
  mkDynamicsWorld (mTimer w) (mContactSolver w) (mConstraintSolver w)
    (mIsDeactivationActive w) bodies (mContactManifolds w)
    (mJoints w) (mConstrainedBodies w) (mGravity w) (mIsGravityOn w)
    (mConstrainedLinearVelocities w) (mConstrainedAngularVelocities w)
    (mMapBodyToConstrainedVelocityIndex w).

Definition set_constraints
    (w : DynamicsWorld D) (manifolds : list (ContactManifold D))
    (joints : gmap pointer (Constraint D)) : DynamicsWorld D :=
  mkDynamicsWorld (mTimer w) (mContactSolver w) (mConstraintSolver w)
    (mIsDeactivationActive w) (mRigidBodies w) manifolds
    joints (mConstrainedBodies w) (mGravity w) (mIsGravityOn w)
    (mConstrainedLinearVelocities w) (mConstrainedAngularVelocities w)
    (mMapBodyToConstrainedVelocityIndex w).

Definition set_mIsGravityOn (w : DynamicsWorld D) (isGravityOn : bool)
  : DynamicsWorld D :=
  mkDynamicsWorld (mTimer w) (mContactSolver w) (mConstraintSolver w)
    (mIsDeactivationActive w) (mRigidBodies w) (mContactManifolds w)
    (mJoints w) (mConstrainedBodies w) (mGravity w) isGravityOn
    (mConstrainedLinearVelocities w) (mConstrainedAngularVelocities w)
    (mMapBodyToConstrainedVelocityIndex w).

Definition set_constrainedVelocities
    (w : DynamicsWorld D) (bodies : gset pointer)
    (linear angular : list (Vector3 D)) (index : gmap pointer nat)
  : DynamicsWorld D :=
  mkDynamicsWorld (mTimer w) (mContactSolver w) (mConstraintSolver w)
    (mIsDeactivationActive w) (mRigidBodies w) (mContactManifolds w)
    (mJoints w) bodies (mGravity w) (mIsGravityOn w)
    linear angular index.

(** *** The inline methods of DynamicsWorld.h *)

Definition start (w : DynamicsWorld D) : DynamicsWorld D :=
  set_mTimer w (Timer.start (mTimer w)).

Definition stop (w : DynamicsWorld D) : DynamicsWorld D :=
  set_mTimer w (Timer.stop (mTimer w)).

Definition setNbIterationsSolver (w : DynamicsWorld D) (nbIterations : uint)
  : DynamicsWorld D :=
  set_mContactSolver w
    (ContactSolver.setNbIterationsSolver (mContactSolver w) nbIterations).

Definition setIsSplitImpulseActive (w : DynamicsWorld D) (isActive : bool)
  : DynamicsWorld D :=
  set_mContactSolver w
    (ContactSolver.setIsSplitImpulseActive (mContactSolver w) isActive).

Definition setIsSolveFrictionAtContactManifoldCenterActive
    (w : DynamicsWorld D) (isActive : bool) : DynamicsWorld D :=
  set_mContactSolver w
    (ContactSolver.setIsSolveFrictionAtContactManifoldCenterActive
       (mContactSolver w) isActive).

(** The loop over the set of bodies, from begin to end. *)
Definition resetBodiesMovementVariable (w : DynamicsWorld D) : DynamicsWorld D :=
  set_mRigidBodies w
    ((fun body => RigidBody.setHasMoved body false) <$> mRigidBodies w).

Definition getGravity (w : DynamicsWorld D) : Vector3 D := mGravity w.

Definition getIsGravityOn (w : DynamicsWorld D) : bool := mIsGravityOn w.

Definition setIsGratityOn (w : DynamicsWorld D) (isGravityOn : bool)
  : DynamicsWorld D :=
  set_mIsGravityOn w isGravityOn.

Definition getNbRigidBodies (w : DynamicsWorld D) : uint :=
  uint_of_size (size (mRigidBodies w)).

Definition getNbContactManifolds (w : DynamicsWorld D) : uint :=
  uint_of_size (List.length (mContactManifolds w)).

(** *** The methods that the header only declares *)

(** Modelled from the spec: the state of §4.3, read off the timer. *)
Definition state (w : DynamicsWorld D) : WorldState :=
  if Timer.getIsRunning (mTimer w) then Running else Stopped.

(** Modelled from the spec: DynamicsWorld::DynamicsWorld(gravity, timeStep)
    (its body is in DynamicsWorld.cpp, not part of the sources): no body, no
    contact, no joint, the time step kept by the timer, and the initial
    state Stopped (§4.3). *)
Definition new (gravity : Vector3 D) (timeStep : D) : DynamicsWorld D :=
  mkDynamicsWorld (mkTimer timeStep false)
    defaultContactSolver defaultConstraintSolver DEACTIVATION_ENABLED
    ∅ [] ∅ ∅ gravity defaultIsGravityOn [] [] ∅.

(** Modelled from the spec: step 3 of update (§4.3), "apply gravity (if
    enabled) to every awake dynamic body: v += g·dt". *)
Definition applyGravity (w : DynamicsWorld D) : DynamicsWorld D :=
  if mIsGravityOn w then
    let dt := Timer.getTimeStep (mTimer w) in
    set_mRigidBodies w
      ((fun body =>
          if negb (mIsSleeping body) && mIsMotionEnabled body then
            RigidBody.setLinearVelocity body
              (mLinearVelocity body +v mGravity w *s dt)
          else body) <$> mRigidBodies w)
  else w.

(** Modelled from the spec: the bodies "touched by at least one active
    contact or joint" (step 4). *)
Definition touchedBodies (w : DynamicsWorld D) : gset pointer :=
  list_to_set
    (flat_map (fun m => [mBody1 m; mBody2 m]) (mContactManifolds w))
  ∪ list_to_set
      (flat_map (fun j => [mJointBody1 j; mJointBody2 j])
                ((map_to_list (mJoints w)).*2)).

(** Modelled from the spec: step 4 of update, "assign a dense index to every
    body touched by at least one active contact or joint; initialize entries
    from current velocities". *)
Definition initConstrainedVelocitiesArray (w : DynamicsWorld D)
  : DynamicsWorld D :=
  let touched :=
    filter (fun pb => pb.1 ∈ touchedBodies w) (map_to_list (mRigidBodies w)) in
  set_constrainedVelocities w
    (list_to_set touched.*1)
    ((fun pb => mLinearVelocity pb.2) <$> touched)
    ((fun pb => mAngularVelocity pb.2) <$> touched)
    (list_to_map (zip touched.*1 (seq 0 (List.length touched)))).

(** Modelled from the spec: step 5 of update, both solvers run "over the
    constrained-velocity arrays (not the bodies' live velocities)". *)
Definition solveConstraints (w : DynamicsWorld D) : DynamicsWorld D :=
  let '(manifolds, joints, (linear, angular)) :=
    solve (mContactSolver w) (mConstraintSolver w)
          (Timer.getTimeStep (mTimer w))
          (mRigidBodies w) (mMapBodyToConstrainedVelocityIndex w)
          (mContactManifolds w) (mJoints w)
          (mConstrainedLinearVelocities w, mConstrainedAngularVelocities w) in
  set_constrainedVelocities (set_constraints w manifolds joints)
    (mConstrainedBodies w) linear angular
    (mMapBodyToConstrainedVelocityIndex w).

(** Modelled from the spec: step 6 for one body, "integrate position and
    orientation by dt" with the new velocities and "mark bodies whose net
    motion exceeds epsilon as moved". *)
Definition updatePositionAndOrientationOfBody
    (dt : D) (body : RigidBody D) (newLinVelocity newAngVelocity : Vector3 D)
  : RigidBody D :=
  let old := mTransform body in
  let moved :=
    mkTransform (mPosition old +v newLinVelocity *s dt)
                (integrateOrientation (mOrientation old) newAngVelocity dt) in
  RigidBody.setHasMoved
    (RigidBody.setTransform
       (RigidBody.setAngularVelocity
          (RigidBody.setLinearVelocity body newLinVelocity) newAngVelocity)
       moved)
    (motionExceedsEpsilon old moved).

(** Modelled from the spec: step 6 of update, "copy constrained velocities
    back into each touched body, then integrate every awake body". *)
Definition updateRigidBodiesPositionAndOrientation (w : DynamicsWorld D)
  : DynamicsWorld D :=
  let dt := Timer.getTimeStep (mTimer w) in
  set_mRigidBodies w
    (map_imap
       (fun p body =>
          let newLinVelocity :=
            default (mLinearVelocity body)
              (i ← mMapBodyToConstrainedVelocityIndex w !! p;
               mConstrainedLinearVelocities w !! i) in
          let newAngVelocity :=
            default (mAngularVelocity body)
              (i ← mMapBodyToConstrainedVelocityIndex w !! p;
               mConstrainedAngularVelocities w !! i) in
          if mIsSleeping body then
            Some (RigidBody.setAngularVelocity
                    (RigidBody.setLinearVelocity body newLinVelocity)
                    newAngVelocity)
          else
            Some (updatePositionAndOrientationOfBody dt body
                    newLinVelocity newAngVelocity))
       (mRigidBodies w)).

(** Modelled from the spec: step 7 of update, the deactivation pass, "if
    enabled". *)
Definition updateSleepingBodies (w : DynamicsWorld D) : DynamicsWorld D :=
  if mIsDeactivationActive w then
    set_mRigidBodies w
      (updateSleeping (Timer.getTimeStep (mTimer w)) <$> mRigidBodies w)
  else w.

(** Modelled from the spec: step 8 of update, "discard the
    constrained-velocity scratch arrays". *)
Definition cleanupConstrainedVelocitiesArray (w : DynamicsWorld D)
  : DynamicsWorld D :=
  set_constrainedVelocities w ∅ [] [] ∅.

(** Modelled from the spec: step 1 of update, narrow-phase contact
    generation over the current overlapping pairs. *)
Definition computeContacts (w : DynamicsWorld D) : DynamicsWorld D :=
  set_constraints w
    (computeCollisions (mRigidBodies w) (mContactManifolds w)) (mJoints w).

(** Modelled from the spec: DynamicsWorld::update (its body is in
    DynamicsWorld.cpp, not part of the sources). §4.3: a no-op unless the
    world is Running; otherwise one fixed time step, the eight steps in
    order. *)
Definition update (w : DynamicsWorld D) : DynamicsWorld D :=
  match state w with
  | Stopped => w
  | Running =>
      let w1 := computeContacts w in
      let w2 := resetBodiesMovementVariable w1 in
      let w3 := applyGravity w2 in
      let w4 := initConstrainedVelocitiesArray w3 in
      let w5 := solveConstraints w4 in
      let w6 := updateRigidBodiesPositionAndOrientation w5 in
      let w7 := updateSleepingBodies w6 in
      cleanupConstrainedVelocitiesArray w7
  end.

(** *** The iterators over the set of bodies *)

(** The pointers that the set holds, in the order in which an iterator
    visits them. *)
Definition rigidBodiesTraversal (w : DynamicsWorld D) : list pointer :=
  (map_to_list (mRigidBodies w)).*1.

(** An iterator is a position in that traversal. *)
Definition getRigidBodiesBeginIterator (w : DynamicsWorld D) : nat := 0.

Definition getRigidBodiesEndIterator (w : DynamicsWorld D) : nat :=
  List.length (rigidBodiesTraversal w).

(** The pointers visited by [for (it = first; it != last; it++)]. *)
Definition rigidBodiesRange (w : DynamicsWorld D) (first last : nat)
  : list pointer :=
  take (last - first) (drop first (rigidBodiesTraversal w)).

(** resetBodiesMovementVariable as the header writes it: the loop from the
    begin iterator to the end iterator, each turn calling setHasMoved(false)
    on the body the iterator points to. *)
Definition resetBodiesMovementVariable_loop (w : DynamicsWorld D)
  : DynamicsWorld D :=
  set_mRigidBodies w
    (foldl
       (fun bodies it =>
          alter (fun body => RigidBody.setHasMoved body false) it bodies)
       (mRigidBodies w)
       (rigidBodiesRange w (getRigidBodiesBeginIterator w)
                         (getRigidBodiesEndIterator w))).
End Code.

(** *** The overlapping pairs *)

Section OverlappingPairs.
(** BroadPhasePair and OverlappingPair are declared in collision/, which is
    not part of the sources: the two types, the index pair of a broad-phase
    pair and the update of a pair's contact cache are parameters. *)
Context {BroadPhasePair OverlappingPair : Type}.
Variable getBodiesIndexPair : BroadPhasePair -> bodyindex * bodyindex.
Variable OverlappingPair_update : OverlappingPair -> OverlappingPair.

(** updateOverlappingPair, on the member mOverlappingPairs that DynamicsWorld
    inherits from CollisionWorld (a map from index pairs to the pairs the
    world owns). For a key that is absent, [operator[]] of std::map yields a
    null pointer, and the call through it does not return: [None]. *)
Definition updateOverlappingPair
    (mOverlappingPairs : gmap (bodyindex * bodyindex) OverlappingPair)
    (pair : BroadPhasePair)
  : option (gmap (bodyindex * bodyindex) OverlappingPair) :=
  let indexPair := getBodiesIndexPair pair in
  overlappingPair ← mOverlappingPairs !! indexPair;
  Some (<[indexPair := OverlappingPair_update overlappingPair]>
          mOverlappingPairs).
End OverlappingPairs.
End DynamicsWorld.

(** ** Definitions used to state the properties *)

(** A binary64 literal, a vector of binary64 literals. *)
Definition f64 (q : Q) : float := float_of_Q q.
Definition v3 (a b c : Q) : Vector3 float := mkVector3 (f64 a) (f64 b) (f64 c).

(** The capsule of radius 0.5 and height 2, in binary64. *)
Definition capsule64 : CapsuleShape float :=
  mkCapsuleShape (mkCollisionShape CAPSULE (f64 0.5)) (f64 0.5) (f64 1).

(** The power of two 2^e, in binary64. *)
Definition pow2 (e : Z) : float := Z.ldexp PrimFloat.one e.



(** A binary64 number that is not below zero: a NaN, or a zero, a finite
    number or an infinity whose sign bit is clear. *)
Definition signClear (s : SpecFloat.spec_float) : Prop :=
  match s with
  | SpecFloat.S754_nan => True
  | SpecFloat.S754_zero sign
  | SpecFloat.S754_infinity sign
  | SpecFloat.S754_finite sign _ _ => sign = false
  end.

Definition signClearOrNaN (f : float) : Prop := signClear (Prim2SF f).

(** The formulas of the inertia tensor as the specification gives them
    (§4.1), evaluated in the scalar arithmetic in the order of the code;
    [height] is twice the half-height. *)
Section TensorFormulas.
Context {D : Type} {arithmetic : Decimal D}.
Local Open Scope decimal_scope.

Definition factor1_formula (r height : D) : D :=
  decimal 2.0 * r / (decimal 4.0 * r + decimal 3.0 * height).

Definition factor2_formula (r height : D) : D :=
  decimal 3.0 * height / (decimal 4.0 * r + decimal 3.0 * height).

Definition Ixx_formula (r height mass : D) : D :=
  factor1_formula r height * mass
  * (decimal 0.4 * (r * r + r * r)
     + (decimal 0.75 * height * r + decimal 0.5 * (height * height)))
  + factor2_formula r height * mass
    * (decimal 0.25 * (r * r) + decimal (1.0 / 12.0) * (height * height)).

Definition Iyy_formula (r height mass : D) : D :=
  factor1_formula r height * mass * (decimal 0.4 * (r * r + r * r))
  + factor2_formula r height * mass * decimal 0.25 * (r * r + r * r).
End TensorFormulas.

(** The epsilon of binary64, 2^-52, as a real number. *)
Definition eps64 : R := (/ 4503599627370496)%R.

(** The two ends of the capsule's inner segment. *)
Definition topCenter (c : CapsuleShape R) : Vector3 R :=
  mkVector3 0%R (mHalfHeight c) 0%R.
Definition bottomCenter (c : CapsuleShape R) : Vector3 R :=
  mkVector3 0%R (- mHalfHeight c)%R 0%R.

(** Euclidean distance between two points. *)
Definition distance (a b : Vector3 R) : R :=
  sqrt ((x a - x b) * (x a - x b) + (y a - y b) * (y a - y b)
        + (z a - z b) * (z a - z b))%R.

(** The inertia tensor of the capsule, as the specification writes it
    (§4.1), with [height = 2h]. *)
Definition spec_factor1 (r height : R) : R :=
  (2 * r / (4 * r + 3 * height))%R.
Definition spec_factor2 (r height : R) : R :=
  (3 * height / (4 * r + 3 * height))%R.
Definition spec_Ixx (r height m : R) : R :=
  (spec_factor1 r height * m
   * (0.4 * (2 * (r * r)) + 0.75 * height * r + 0.5 * (height * height))
   + spec_factor2 r height * m * (0.25 * (r * r) + height * height / 12))%R.
Definition spec_Iyy (r height m : R) : R :=
  (spec_factor1 r height * m * 0.4 * (2 * (r * r))
   + spec_factor2 r height * m * 0.25 * (2 * (r * r)))%R.

(** The square of the distance between two points. *)
Definition squaredDistance (a b : Vector3 R) : R :=
  ((x a - x b) * (x a - x b) + (y a - y b) * (y a - y b)
   + (z a - z b) * (z a - z b))%R.

(** A point of the Y axis; the inner segment of a capsule is made of the
    points [axisPoint t] with -h <= t <= h. *)
Definition axisPoint (t : R) : Vector3 R := mkVector3 0%R t 0%R.

(** The capsule of radius 1/2 and height 2, over the reals. *)
Definition capsuleR : CapsuleShape R :=
  mkCapsuleShape (mkCollisionShape CAPSULE (1 / 2)%R) (1 / 2)%R (2 / 2)%R.

(** The attributes that persist from one step to the next: all but the
    constrained-velocity scratch (§3: "never persisted across steps"). *)
Definition same_simulation_state {D : Type} (w1 w2 : DynamicsWorld D) : Prop :=
  mTimer w1 = mTimer w2
  /\ mContactSolver w1 = mContactSolver w2
  /\ mConstraintSolver w1 = mConstraintSolver w2
  /\ mIsDeactivationActive w1 = mIsDeactivationActive w2
  /\ mRigidBodies w1 = mRigidBodies w2
  /\ mContactManifolds w1 = mContactManifolds w2
  /\ mJoints w1 = mJoints w2
  /\ mGravity w1 = mGravity w2
  /\ mIsGravityOn w1 = mIsGravityOn w2.

(** All the attributes but the timer. *)
Definition same_but_timer {D : Type} (w1 w2 : DynamicsWorld D) : Prop :=
  mContactSolver w1 = mContactSolver w2
  /\ mConstraintSolver w1 = mConstraintSolver w2
  /\ mIsDeactivationActive w1 = mIsDeactivationActive w2
  /\ mRigidBodies w1 = mRigidBodies w2
  /\ mContactManifolds w1 = mContactManifolds w2
  /\ mJoints w1 = mJoints w2
  /\ mConstrainedBodies w1 = mConstrainedBodies w2
  /\ mGravity w1 = mGravity w2
  /\ mIsGravityOn w1 = mIsGravityOn w2
  /\ mConstrainedLinearVelocities w1 = mConstrainedLinearVelocities w2
  /\ mConstrainedAngularVelocities w1 = mConstrainedAngularVelocities w2
  /\ mMapBodyToConstrainedVelocityIndex w1
     = mMapBodyToConstrainedVelocityIndex w2.

(** All the attributes but the configuration of the contact solver. *)
Definition same_but_contact_solver {D : Type} (w1 w2 : DynamicsWorld D)
  : Prop :=
  mTimer w1 = mTimer w2
  /\ mConstraintSolver w1 = mConstraintSolver w2
  /\ mIsDeactivationActive w1 = mIsDeactivationActive w2
  /\ mRigidBodies w1 = mRigidBodies w2
  /\ mContactManifolds w1 = mContactManifolds w2
  /\ mJoints w1 = mJoints w2
  /\ mConstrainedBodies w1 = mConstrainedBodies w2
  /\ mGravity w1 = mGravity w2
  /\ mIsGravityOn w1 = mIsGravityOn w2
  /\ mConstrainedLinearVelocities w1 = mConstrainedLinearVelocities w2
  /\ mConstrainedAngularVelocities w1 = mConstrainedAngularVelocities w2
  /\ mMapBodyToConstrainedVelocityIndex w1
     = mMapBodyToConstrainedVelocityIndex w2.

(** Collaborators that keep every contact as it is: collision detection
    reports the manifolds it was given, the solvers leave impulses and
    velocities alone, orientations do not turn, a body has moved when its
    position changed by at least epsilon, and no body falls asleep. *)
Definition freeFlight : Collaborators float := {|
  computeCollisions := fun _ manifolds => manifolds;
  solve := fun _ _ _ _ _ manifolds joints velocities =>
             (manifolds, joints, velocities);
  integrateOrientation := fun q _ _ => q;
  motionExceedsEpsilon := fun old moved =>
    (Vector3.lengthSquare
       (mPosition moved +v mPosition old *s decimal (-1))
     >=? MACHINE_EPSILON * MACHINE_EPSILON)%dec;
  updateSleeping := fun _ body => body;
  defaultContactSolver := mkContactSolver 15%Z true true;
  defaultConstraintSolver := mkConstraintSolver true;
  defaultIsGravityOn := true;
  DEACTIVATION_ENABLED := true
|}.

Definition identity3x3 : Matrix3x3 float :=
  mkMatrix3x3 (f64 1) (f64 0) (f64 0) (f64 0) (f64 1) (f64 0)
              (f64 0) (f64 0) (f64 1).

Definition noRotation : Quaternion float :=
  mkQuaternion (f64 0) (f64 0) (f64 0) (f64 1).

(** A dynamic body of mass 1 at rest at height 10. *)
Definition ball : RigidBody float :=
  mkRigidBody (f64 1) (f64 1) identity3x3
    (mkTransform (v3 0 10 0) noRotation)
    (v3 0 0 0) (v3 0 0 0) true false (f64 0) false.

(** A body at the origin whose motion is disabled. *)
Definition ground : RigidBody float :=
  mkRigidBody (f64 1) (f64 0) identity3x3
    (mkTransform (v3 0 0 0) noRotation)
    (v3 0 0 0) (v3 0 0 0) false false (f64 0) false.

(** The world with gravity (0,-10,0) and time step 0.5 holding these two
    bodies, at addresses 1 and 2, and one (empty) manifold between them. *)
Definition ballWorld : DynamicsWorld float :=
  DynamicsWorld.set_constraints
    (DynamicsWorld.set_mRigidBodies
       (DynamicsWorld.new (collaborators := freeFlight)
          (v3 0 (-10) 0) (f64 0.5))
       {[ 1%positive := ball; 2%positive := ground ]})
    [mkContactManifold 1%positive 2%positive []] ∅.

(** The same world with stale scratch arrays left in it. *)
Definition ballWorldStale : DynamicsWorld float :=
  DynamicsWorld.set_constrainedVelocities ballWorld {[ 7%positive ]}
    [v3 1 2 3] [v3 4 5 6] {[ 7%positive := 0%nat ]}.

(** * Properties *)

(** ** Running the capsule code in binary64 *)

Example binary64_new :
  CapsuleShape.new (f64 0.5) (f64 2) = Some capsule64.
Proof. vm_compute. reflexivity. Qed.

(** A rejected construction. *)
Example binary64_rejected :
  CapsuleShape.new (f64 0) (f64 2) = None
  /\ CapsuleShape.new (f64 0.5) (f64 (-1)) = None.
Proof. split; vm_compute; reflexivity. Qed.

(** The zero direction, for any capsule. *)
Example binary64_degenerate :
  forall c : CapsuleShape float,
    CapsuleShape.getLocalSupportPointWithMargin c (v3 0 0 0)
    = mkVector3 (f64 0) (mRadius c) (f64 0).
Proof. intros c. vm_compute. reflexivity. Qed.

(** The worked example of the specification. *)
Example binary64_worked_example :
  CapsuleShape.getLocalSupportPointWithMargin capsule64 (v3 0 1 0)
  = v3 0 1.5 0
  /\ CapsuleShape.getLocalSupportPointWithMargin capsule64 (v3 0 (-1) 0)
     = v3 0 (-1.5) 0
  /\ CapsuleShape.getLocalSupportPointWithoutMargin capsule64 (v3 0 1 0)
     = v3 0 1 0
  /\ CapsuleShape.getLocalSupportPointWithoutMargin capsule64 (v3 0 (-1) 0)
     = v3 0 (-1) 0.
Proof. repeat split; vm_compute; reflexivity. Qed.

(** A direction with d.y = 0: the point of the bottom sphere comes back. *)
Example binary64_tie :
  CapsuleShape.getLocalSupportPointWithMargin capsule64 (v3 1 0 0)
  = v3 0.5 (-1) 0.
Proof. vm_compute. reflexivity. Qed.

(** ** Facts that hold in every arithmetic *)

Section AnyArithmetic.
Context {D : Type} {arithmetic : Decimal D}.
Local Open Scope decimal_scope.

Lemma new_Some (radius height : D) (c : CapsuleShape D) :
  CapsuleShape.new radius height = Some c <->
  (radius >? decimal 0.0) = true /\ (height >? decimal 0.0) = true /\
  c = mkCapsuleShape (mkCollisionShape CAPSULE radius) radius
                     (height * decimal 0.5).
Proof.
  unfold CapsuleShape.new.
  destruct (radius >? decimal 0.0), (height >? decimal 0.0); cbn;
    (split; [intros Hc | intros (Hr & Hh & Hc)]);
    try discriminate.
  - injection Hc as <-. auto.
  - now subst c.
Qed.

Lemma new_None (radius height : D) :
  CapsuleShape.new radius height = None <->
  (radius >? decimal 0.0) = false \/ (height >? decimal 0.0) = false.
Proof.
  unfold CapsuleShape.new.
  destruct (radius >? decimal 0.0), (height >? decimal 0.0); cbn;
    (split; [intros Hc | intros [Hc | Hc]]);
    try discriminate; auto.
Qed.

Lemma withMargin_degenerate (c : CapsuleShape D) (d : Vector3 D) :
  (Vector3.lengthSquare d >=? MACHINE_EPSILON * MACHINE_EPSILON) = false ->
  CapsuleShape.getLocalSupportPointWithMargin c d
  = mkVector3 (decimal 0) (mRadius c) (decimal 0).
Proof.
  intros Hlt. unfold CapsuleShape.getLocalSupportPointWithMargin.
  now rewrite Hlt.
Qed.

Lemma withMargin_regular (c : CapsuleShape D) (d : Vector3 D) :
  (Vector3.lengthSquare d >=? MACHINE_EPSILON * MACHINE_EPSILON) = true ->
  CapsuleShape.getLocalSupportPointWithMargin c d =
  let u := Vector3.getUnit d in
  let top := mkVector3 (decimal 0) (mHalfHeight c) (decimal 0) +v u *s mRadius c in
  let bottom :=
    mkVector3 (decimal 0) (- mHalfHeight c) (decimal 0) +v u *s mRadius c in
  if Vector3.dot top d >? Vector3.dot bottom d then top else bottom.
Proof.
  intros Hge. unfold CapsuleShape.getLocalSupportPointWithMargin.
  now rewrite Hge.
Qed.



End AnyArithmetic.

(** ** Not-a-number in binary64

    A comparison with a NaN operand is false, and NaN goes through sums and
    products: the guards of the code send NaN arguments to the branch that an
    unordered comparison selects. *)

Section Binary64NaN.
Import SpecFloat.

Lemma is_nan_spec (f : float) :
  PrimFloat.is_nan f = true <-> Prim2SF f = S754_nan.
Proof.
  unfold PrimFloat.is_nan. rewrite FloatAxioms.eqb_spec. unfold SFeqb.
  destruct (Prim2SF f) as [s | s | | s m e]; cbn.
  - split; discriminate.
  - destruct s; split; discriminate.
  - split; reflexivity.
  - destruct s; rewrite Z.compare_refl;
      change (Pos.compare_cont Eq m m) with (Pos.compare m m);
      rewrite Pos.compare_refl; cbn; split; discriminate.
Qed.

Lemma mul_nan_l (a b : float) :
  PrimFloat.is_nan a = true -> PrimFloat.is_nan (PrimFloat.mul a b) = true.
Proof. rewrite !is_nan_spec, FloatAxioms.mul_spec. intros ->. reflexivity. Qed.

Lemma add_nan_l (a b : float) :
  PrimFloat.is_nan a = true -> PrimFloat.is_nan (PrimFloat.add a b) = true.
Proof. rewrite !is_nan_spec, FloatAxioms.add_spec. intros ->. reflexivity. Qed.

Lemma add_nan_r (a b : float) :
  PrimFloat.is_nan b = true -> PrimFloat.is_nan (PrimFloat.add a b) = true.
Proof.
  rewrite !is_nan_spec, FloatAxioms.add_spec. intros ->.
  unfold SF64add. destruct (Prim2SF a); reflexivity.
Qed.

Lemma leb_nan_r (a b : float) :
  PrimFloat.is_nan b = true -> PrimFloat.leb a b = false.
Proof.
  rewrite is_nan_spec, FloatAxioms.leb_spec. intros ->.
  unfold SFleb. destruct (Prim2SF a); reflexivity.
Qed.

Lemma ltb_nan_r (a b : float) :
  PrimFloat.is_nan b = true -> PrimFloat.ltb a b = false.
Proof.
  rewrite is_nan_spec, FloatAxioms.ltb_spec. intros ->.
  unfold SFltb. destruct (Prim2SF a); reflexivity.
Qed.

Lemma lengthSquare_nan (d : Vector3 float) :
  PrimFloat.is_nan (x d) || PrimFloat.is_nan (y d) || PrimFloat.is_nan (z d)
  = true ->
  PrimFloat.is_nan (Vector3.lengthSquare d) = true.
Proof.
  intros Hnan. unfold Vector3.lengthSquare.
  cbn [dadd dmul binary64_decimal].
  apply orb_true_iff in Hnan as [Hnan | Hz].
  - apply add_nan_l. apply orb_true_iff in Hnan as [Hx | Hy].
    + apply add_nan_l, mul_nan_l, Hx.
    + apply add_nan_r, mul_nan_l, Hy.
  - apply add_nan_r, mul_nan_l, Hz.
Qed.

(** X12. In binary64, a direction with a NaN component is treated as the zero
    direction: getLocalSupportPointWithMargin returns (0, r, 0), without
    a NaN in it. *)
Theorem binary64_nan_direction (c : CapsuleShape float) (d : Vector3 float) :
  PrimFloat.is_nan (x d) || PrimFloat.is_nan (y d) || PrimFloat.is_nan (z d)
  = true ->
  CapsuleShape.getLocalSupportPointWithMargin c d
  = mkVector3 (f64 0) (mRadius c) (f64 0).
Proof.
  intros Hnan. rewrite withMargin_degenerate; [reflexivity |].
  cbn [dgeb binary64_decimal]. apply leb_nan_r, lengthSquare_nan, Hnan.
Qed.

(** X13. In binary64, a direction whose Y component is NaN selects the bottom
    end of the segment in getLocalSupportPointWithoutMargin. *)
Theorem binary64_nan_axis (c : CapsuleShape float) (d : Vector3 float) :
  PrimFloat.is_nan (y d) = true ->
  CapsuleShape.getLocalSupportPointWithoutMargin c d
  = mkVector3 (f64 0) (PrimFloat.opp (mHalfHeight c)) (f64 0).
Proof.
  intros Hnan. unfold CapsuleShape.getLocalSupportPointWithoutMargin.
  cbn [dgtb binary64_decimal]. now rewrite (ltb_nan_r _ _ Hnan).
Qed.

(** X14. In binary64, the constructor rejects a NaN radius and a NaN height: both
    assertions compare with >, which is false on NaN. *)
Theorem binary64_nan_dimensions (radius height : float) :
  PrimFloat.is_nan radius || PrimFloat.is_nan height = true ->
  CapsuleShape.new radius height = None.
Proof.
  intros Hnan. apply new_None. cbn [dgtb binary64_decimal].
  apply orb_true_iff in Hnan as [Hr | Hh].
  - left. apply ltb_nan_r, Hr.
  - right. apply ltb_nan_r, Hh.
Qed.

Lemma binary64_nan_direction_witness :
  let d := mkVector3 PrimFloat.nan (f64 1) (f64 0) in
  PrimFloat.is_nan (x d) || PrimFloat.is_nan (y d) || PrimFloat.is_nan (z d)
  = true
  /\ CapsuleShape.getLocalSupportPointWithMargin capsule64 d
     = mkVector3 (f64 0) (f64 0.5) (f64 0).
Proof.
  intros d. split; [reflexivity |].
  apply (binary64_nan_direction capsule64 d). reflexivity.
Defined.

Lemma binary64_nan_axis_witness :
  let d := mkVector3 (f64 1) PrimFloat.nan (f64 0) in
  PrimFloat.is_nan (y d) = true
  /\ CapsuleShape.getLocalSupportPointWithoutMargin capsule64 d
     = mkVector3 (f64 0) (f64 (-1)) (f64 0).
Proof.
  intros d. split; [reflexivity |].
  apply (binary64_nan_axis capsule64 d). reflexivity.
Defined.

Lemma binary64_nan_dimensions_witness :
  PrimFloat.is_nan PrimFloat.nan || PrimFloat.is_nan (f64 2) = true
  /\ CapsuleShape.new PrimFloat.nan (f64 2) = None.
Proof.
  split; [reflexivity |].
  apply (binary64_nan_dimensions PrimFloat.nan (f64 2)). reflexivity.
Defined.

End Binary64NaN.

(** ** Signs in binary64

    Rounding keeps the sign: a sum, a product or a quotient of numbers that
    are not below zero is not below zero (it may be a zero, an infinity or a
    NaN). *)

Section Binary64Signs.
Import SpecFloat.

Lemma binary_round_aux_signClear (mx ex : Z) (lx : location) :
  signClear (binary_round_aux prec emax false mx ex lx).
Proof.
  unfold binary_round_aux.
  destruct (shr_fexp prec emax mx ex lx) as [mrs' e'].
  destruct (shr_fexp prec emax _ e' loc_Exact) as [mrs'' e''].
  destruct (shr_m mrs'') as [| m | m]; cbn.
  - reflexivity.
  - destruct (e'' <=? emax - prec)%Z; reflexivity.
  - exact I.
Qed.

Lemma binary_round_signClear (mx : positive) (ex : Z) :
  signClear (binary_round prec emax false mx ex).
Proof.
  unfold binary_round.
  destruct (shl_align mx ex _) as [mz ez].
  apply binary_round_aux_signClear.
Qed.

Lemma SFmul_signClear (a b : spec_float) :
  signClear a -> signClear b -> signClear (SF64mul a b).
Proof.
  unfold SF64mul.
  destruct a as [sa | sa | | sa ma ea], b as [sb | sb | | sb mb eb];
    cbn; intros Ha Hb; subst; try reflexivity; try exact I.
  apply binary_round_aux_signClear.
Qed.

Lemma SFadd_signClear (a b : spec_float) :
  signClear a -> signClear b -> signClear (SF64add a b).
Proof.
  unfold SF64add.
  destruct a as [sa | sa | | sa ma ea], b as [sb | sb | | sb mb eb];
    cbn; intros Ha Hb; subst; try reflexivity; try exact I.
  apply binary_round_signClear.
Qed.

Lemma SFdiv_signClear (a b : spec_float) :
  signClear a -> signClear b -> signClear (SF64div a b).
Proof.
  unfold SF64div.
  destruct a as [sa | sa | | sa ma ea], b as [sb | sb | | sb mb eb];
    cbn; intros Ha Hb; subst; try reflexivity; try exact I.
  destruct (SFdiv_core_binary prec emax (Z.pos ma) ea (Z.pos mb) eb)
    as [[mz ez] lz].
  apply binary_round_aux_signClear.
Qed.

Lemma mul_signClear (a b : float) :
  signClearOrNaN a -> signClearOrNaN b ->
  signClearOrNaN (PrimFloat.mul a b).
Proof.
  unfold signClearOrNaN. rewrite FloatAxioms.mul_spec.
  apply SFmul_signClear.
Qed.

Lemma add_signClear (a b : float) :
  signClearOrNaN a -> signClearOrNaN b ->
  signClearOrNaN (PrimFloat.add a b).
Proof.
  unfold signClearOrNaN. rewrite FloatAxioms.add_spec.
  apply SFadd_signClear.
Qed.

Lemma div_signClear (a b : float) :
  signClearOrNaN a -> signClearOrNaN b ->
  signClearOrNaN (PrimFloat.div a b).
Proof.
  unfold signClearOrNaN. rewrite FloatAxioms.div_spec.
  apply SFdiv_signClear.
Qed.

(** A number that compares greater than zero has its sign bit clear. *)
Lemma positive_signClear (a : float) :
  PrimFloat.ltb (f64 0) a = true -> signClearOrNaN a.
Proof.
  unfold signClearOrNaN. rewrite FloatAxioms.ltb_spec.
  change (Prim2SF (f64 0)) with (S754_zero false).
  unfold SFltb.
  destruct (Prim2SF a) as [s | s | | s m e]; cbn;
    try discriminate; destruct s; try discriminate; reflexivity.
Qed.

(** A number whose sign bit is clear, or a NaN, does not compare less than
    zero. *)
Lemma signClear_not_negative (a : float) :
  signClearOrNaN a -> PrimFloat.ltb a (f64 0) = false.
Proof.
  unfold signClearOrNaN. rewrite FloatAxioms.ltb_spec.
  change (Prim2SF (f64 0)) with (S754_zero false).
  unfold SFltb.
  destruct (Prim2SF a) as [s | s | | s m e]; cbn;
    intros Hs; subst; reflexivity.
Qed.

(** A number and itself compare equal, unless it is a NaN. *)
Lemma eqb_same (a : float) :
  PrimFloat.eqb a a = true \/ PrimFloat.is_nan a = true.
Proof.
  unfold PrimFloat.is_nan. destruct (PrimFloat.eqb a a); auto.
Qed.

(** The literals of computeLocalInertiaTensor are positive. *)
Ltac sign_clear :=
  repeat first
    [ assumption
    | apply add_signClear
    | apply mul_signClear
    | apply div_signClear
    | exact (eq_refl false) ].

Lemma formulas_signClear (r height mass : float) :
  signClearOrNaN r -> signClearOrNaN height -> signClearOrNaN mass ->
  signClearOrNaN (Ixx_formula r height mass)
  /\ signClearOrNaN (Iyy_formula r height mass).
Proof.
  intros Hr Hh Hm.
  unfold Ixx_formula, Iyy_formula, factor1_formula, factor2_formula.
  cbn [dadd dmul ddiv decimal binary64_decimal].
  split; sign_clear.
Qed.

(** C3, as the code has it, in binary64. For radius > 0, height > 0 and
    mass > 0, computeLocalInertiaTensor sets the tensor to
    diag(Ixx, Iyy, Ixx), where Ixx and Iyy are the formulas of the
    specification evaluated in binary64 with height = h + h for the stored
    half-height h = height·0.5. Ixx and Izz are the same value (so Ixx == Izz
    unless that value is NaN), the six other entries are zero, and no diagonal
    entry compares less than zero. *)
Theorem inertia_tensor_binary64
    (radius height mass : float) (c : CapsuleShape float)
    (tensor : Matrix3x3 float) :
  CapsuleShape.new radius height = Some c ->
  PrimFloat.ltb (f64 0) mass = true ->
  let h := PrimFloat.mul height (f64 0.5) in
  let T := CapsuleShape.computeLocalInertiaTensor c tensor mass in
  T = mkMatrix3x3
        (Ixx_formula radius (PrimFloat.add h h) mass) (f64 0) (f64 0)
        (f64 0) (Iyy_formula radius (PrimFloat.add h h) mass) (f64 0)
        (f64 0) (f64 0) (Ixx_formula radius (PrimFloat.add h h) mass)
  /\ m00 T = m22 T
  /\ (PrimFloat.eqb (m00 T) (m22 T) = true \/ PrimFloat.is_nan (m00 T) = true)
  /\ PrimFloat.ltb (m00 T) (f64 0) = false
  /\ PrimFloat.ltb (m11 T) (f64 0) = false
  /\ PrimFloat.ltb (m22 T) (f64 0) = false
  /\ m01 T = f64 0 /\ m02 T = f64 0 /\ m10 T = f64 0
  /\ m12 T = f64 0 /\ m20 T = f64 0 /\ m21 T = f64 0.
Proof.
  intros Hc Hm h T.
  apply new_Some in Hc as (Hr & Hh & ->).
  cbn [dgtb binary64_decimal] in Hr, Hh.
  assert (HT : T = mkMatrix3x3
                     (Ixx_formula radius (PrimFloat.add h h) mass)
                     (f64 0) (f64 0)
                     (f64 0) (Iyy_formula radius (PrimFloat.add h h) mass)
                     (f64 0)
                     (f64 0) (f64 0)
                     (Ixx_formula radius (PrimFloat.add h h) mass))
    by reflexivity.
  assert (Hsr : signClearOrNaN radius) by (apply positive_signClear, Hr).
  assert (Hsh : signClearOrNaN height) by (apply positive_signClear, Hh).
  assert (Hsm : signClearOrNaN mass) by (apply positive_signClear, Hm).
  assert (Hs2 : signClearOrNaN (PrimFloat.add h h)).
  { apply add_signClear; apply mul_signClear;
      first [assumption | exact (eq_refl false)]. }
  destruct (formulas_signClear radius (PrimFloat.add h h) mass Hsr Hs2 Hsm)
    as [Hxx Hyy].
  rewrite HT. cbn [m00 m01 m02 m10 m11 m12 m20 m21 m22].
  repeat split; try reflexivity;
    try (apply signClear_not_negative; assumption).
  apply eqb_same.
Qed.

End Binary64Signs.

(** ** Where rounding shows: runs of the two functions in binary64 *)

(** The tensor of the capsule of radius 0.5 and height 2 for the mass 1. *)
Example binary64_tensor :
  CapsuleShape.computeLocalInertiaTensor capsule64
    (mkMatrix3x3 (f64 0) (f64 0) (f64 0) (f64 0) (f64 0) (f64 0)
                 (f64 0) (f64 0) (f64 0))
    (f64 1)
  = mkMatrix3x3 0x1.54ccccccccccdp-1%float (f64 0) (f64 0)
                (f64 0) 0x1.e666666666666p-4%float (f64 0)
                (f64 0) (f64 0) 0x1.54ccccccccccdp-1%float.
Proof. vm_compute. reflexivity. Qed.



(** The diagonal of the tensor is not strictly positive for every accepted
    input: for radius = height = 2^-600 and mass 1 the constructor accepts the
    capsule and every product underflows, so the three diagonal entries are
    zero; for radius 2^1023 and height 1 the diagonal is NaN, and Ixx == Izz
    is false. *)
Lemma inertia_positive_counterexample :
  let tiny := mkCapsuleShape (mkCollisionShape CAPSULE (pow2 (-600)))
                (pow2 (-600)) (pow2 (-601)) in
  let huge := mkCapsuleShape (mkCollisionShape CAPSULE (pow2 1023))
                (pow2 1023) (f64 0.5) in
  let tensor := mkMatrix3x3 (f64 0) (f64 0) (f64 0) (f64 0) (f64 0) (f64 0)
                  (f64 0) (f64 0) (f64 0) in
  (CapsuleShape.new (pow2 (-600)) (pow2 (-600)) = Some tiny
   /\ PrimFloat.ltb (f64 0) (f64 1) = true
   /\ CapsuleShape.computeLocalInertiaTensor tiny tensor (f64 1) = tensor
   /\ PrimFloat.ltb (f64 0)
        (m00 (CapsuleShape.computeLocalInertiaTensor tiny tensor (f64 1)))
      = false
   /\ PrimFloat.ltb (f64 0)
        (m11 (CapsuleShape.computeLocalInertiaTensor tiny tensor (f64 1)))
      = false)
  /\ (CapsuleShape.new (pow2 1023) (f64 1) = Some huge
      /\ PrimFloat.is_nan
           (m00 (CapsuleShape.computeLocalInertiaTensor huge tensor (f64 1)))
         = true
      /\ PrimFloat.eqb
           (m00 (CapsuleShape.computeLocalInertiaTensor huge tensor (f64 1)))
           (m22 (CapsuleShape.computeLocalInertiaTensor huge tensor (f64 1)))
         = false).
Proof. cbv zeta. repeat split; vm_compute; reflexivity. Qed.

Lemma inertia_tensor_binary64_witness :
  let tensor := mkMatrix3x3 (f64 0) (f64 0) (f64 0) (f64 0) (f64 0) (f64 0)
                  (f64 0) (f64 0) (f64 0) in
  let h := PrimFloat.mul (f64 2) (f64 0.5) in
  let T := CapsuleShape.computeLocalInertiaTensor capsule64 tensor (f64 1) in
  T = mkMatrix3x3
        (Ixx_formula (f64 0.5) (PrimFloat.add h h) (f64 1)) (f64 0) (f64 0)
        (f64 0) (Iyy_formula (f64 0.5) (PrimFloat.add h h) (f64 1)) (f64 0)
        (f64 0) (f64 0) (Ixx_formula (f64 0.5) (PrimFloat.add h h) (f64 1))
  /\ m00 T = m22 T
  /\ (PrimFloat.eqb (m00 T) (m22 T) = true \/ PrimFloat.is_nan (m00 T) = true)
  /\ PrimFloat.ltb (m00 T) (f64 0) = false
  /\ PrimFloat.ltb (m11 T) (f64 0) = false
  /\ PrimFloat.ltb (m22 T) (f64 0) = false
  /\ m01 T = f64 0 /\ m02 T = f64 0 /\ m10 T = f64 0
  /\ m12 T = f64 0 /\ m20 T = f64 0 /\ m21 T = f64 0.
Proof.
  intros tensor.
  exact (inertia_tensor_binary64 (f64 0.5) (f64 2) (f64 1) capsule64 tensor
           binary64_new eq_refl).
Defined.

(** ** The code over the real numbers *)

Section RealArithmetic.
Variable eps : R.
Hypothesis eps_pos : (0 < eps)%R.

#[local] Hint Extern 0 (Decimal R) =>
  exact (real_decimal eps) : typeclass_instances.

Local Open Scope R_scope.

(** Unfolding the interface at the reals, and the literals of the source. *)
Ltac real_code :=
  cbn [decimal dadd dmul ddiv dopp dsqrt dgtb dgeb MACHINE_EPSILON
       real_decimal
       x y z mRadius mHalfHeight shape mType mMargin
       m00 m01 m02 m10 m11 m12 m20 m21 m22] in *;
  unfold Q2R in *; cbn [Qnum Qden] in *.

Lemma Rgtb_true (a b : R) : Rgtb a b = true <-> a > b.
Proof.
  unfold Rgtb.
  destruct (Rgt_dec a b); split; intros; try discriminate; tauto.
Qed.

Lemma Rgtb_false (a b : R) : Rgtb a b = false <-> a <= b.
Proof.
  unfold Rgtb.
  destruct (Rgt_dec a b); split; intros; try discriminate; try lra; auto.
Qed.

Lemma Rgeb_true (a b : R) : Rgeb a b = true <-> a >= b.
Proof.
  unfold Rgeb.
  destruct (Rge_dec a b); split; intros; try discriminate; tauto.
Qed.

Lemma Rgeb_false (a b : R) : Rgeb a b = false <-> a < b.
Proof.
  unfold Rgeb.
  destruct (Rge_dec a b); split; intros; try discriminate; try lra; auto.
Qed.

(** A capsule that the constructor returned. *)
Lemma new_real (r height : R) (c : CapsuleShape R) :
  CapsuleShape.new r height = Some c <->
  0 < r /\ 0 < height /\
  c = mkCapsuleShape (mkCollisionShape CAPSULE r) r (height / 2).
Proof.
  rewrite new_Some. real_code. rewrite !Rgtb_true.
  replace (height * (5 * / 10)) with (height / 2) by lra.
  intuition lra.
Qed.

Lemma Vector3_eq (a b : Vector3 R) :
  x a = x b -> y a = y b -> z a = z b -> a = b.
Proof. destruct a, b; cbn; intros; subst; reflexivity. Qed.

Lemma lengthSquare_nonneg (d : Vector3 R) : 0 <= Vector3.lengthSquare d.
Proof. unfold Vector3.lengthSquare. real_code. nra. Qed.

Lemma length_pos (d : Vector3 R) :
  Vector3.lengthSquare d >= eps * eps -> 0 < Vector3.length d.
Proof.
  intros Hd. unfold Vector3.length. real_code. apply sqrt_lt_R0. nra.
Qed.

Lemma length_square (d : Vector3 R) :
  Vector3.length d * Vector3.length d = x d * x d + y d * y d + z d * z d.
Proof.
  unfold Vector3.length. real_code. rewrite sqrt_sqrt.
  - reflexivity.
  - apply lengthSquare_nonneg.
Qed.

(** [getUnit] returns a vector of norm one, parallel to its argument. *)
Lemma getUnit_norm (d : Vector3 R) :
  Vector3.lengthSquare d >= eps * eps ->
  let u := Vector3.getUnit d in
  x u * x u + y u * y u + z u * z u = 1.
Proof.
  intros Hd u. subst u. pose proof (length_pos d Hd) as HL.
  pose proof (length_square d) as HLL.
  unfold Vector3.getUnit. real_code.
  transitivity ((x d * x d + y d * y d + z d * z d)
                / (Vector3.length d * Vector3.length d)).
  - field. lra.
  - rewrite <- HLL. field. lra.
Qed.

Lemma getUnit_y_sign (d : Vector3 R) :
  Vector3.lengthSquare d >= eps * eps ->
  (0 < y d -> 0 < y (Vector3.getUnit d)) /\ (y d <= 0 -> y (Vector3.getUnit d) <= 0).
Proof.
  intros Hd. pose proof (length_pos d Hd) as HL.
  unfold Vector3.getUnit. real_code. split; intros Hy.
  - apply Rdiv_lt_0_compat; assumption.
  - unfold Rdiv. apply Rinv_0_lt_compat in HL. nra.
Qed.

(** The comparison of the two dot products only sees the Y component. *)
Lemma dot_gap (c : CapsuleShape R) (d u : Vector3 R) :
  Vector3.dot (topCenter c +v u *s mRadius c)%dec d
  - Vector3.dot (bottomCenter c +v u *s mRadius c)%dec d
  = 2 * mHalfHeight c * y d.
Proof.
  unfold Vector3.dot, Vector3.add, Vector3.scale, topCenter, bottomCenter.
  real_code. ring.
Qed.

(** Over the reals, the guarded branch of [getLocalSupportPointWithMargin]
    is the selection of [getLocalSupportPointWithoutMargin], moved by the
    radius along the unit direction. *)
Lemma withMargin_real (r height : R) (c : CapsuleShape R) (d : Vector3 R) :
  CapsuleShape.new r height = Some c ->
  Vector3.lengthSquare d >= eps * eps ->
  CapsuleShape.getLocalSupportPointWithMargin c d
  = ((if Rgt_dec (y d) 0 then topCenter c else bottomCenter c)
     +v Vector3.getUnit d *s r)%dec.
Proof.
  intros Hc Hd. apply new_real in Hc as (Hr & Hh & Hc).
  rewrite withMargin_regular
    by (real_code; apply Rgeb_true; exact Hd).
  cbv zeta.
  replace (mkVector3 (decimal 0) (mHalfHeight c) (decimal 0))
    with (topCenter c) by (unfold topCenter; real_code; f_equal; lra).
  replace (mkVector3 (decimal 0) (- mHalfHeight c)%dec (decimal 0))
    with (bottomCenter c) by (unfold bottomCenter; real_code; f_equal; lra).
  pose proof (dot_gap c d (Vector3.getUnit d)) as Hgap.
  assert (Hh2 : mHalfHeight c = height / 2) by (subst c; reflexivity).
  assert (Hr2 : mRadius c = r) by (subst c; reflexivity).
  rewrite Hr2 in *. change dgtb with Rgtb.
  destruct (Rgt_dec (y d) 0) as [Hy | Hy].
  - rewrite (proj2 (Rgtb_true _ _)); [reflexivity |]. nra.
  - rewrite (proj2 (Rgtb_false _ _)); [reflexivity |]. nra.
Qed.

Lemma withoutMargin_real (c : CapsuleShape R) (d : Vector3 R) :
  CapsuleShape.getLocalSupportPointWithoutMargin c d
  = if Rgt_dec (y d) 0 then topCenter c else bottomCenter c.
Proof.
  unfold CapsuleShape.getLocalSupportPointWithoutMargin, topCenter, bottomCenter.
  real_code. unfold Rgtb. replace (0 * / 10) with 0 by lra.
  destruct (Rgt_dec (y d) 0); f_equal; lra.
Qed.

Lemma distance_from_center (s u : Vector3 R) (r : R) :
  0 < r -> x u * x u + y u * y u + z u * z u = 1 ->
  distance (s +v u *s r)%dec s = r.
Proof.
  intros Hr Hu. unfold distance, Vector3.add, Vector3.scale. real_code.
  replace ((x s + x u * r - x s) * (x s + x u * r - x s)
           + (y s + y u * r - y s) * (y s + y u * r - y s)
           + (z s + z u * r - z s) * (z s + z u * r - z s))
    with ((x u * x u + y u * y u + z u * z u) * (r * r)) by ring.
  rewrite Hu, Rmult_1_l. apply sqrt_square. lra.
Qed.

(** In exact arithmetic, without rounding: for a capsule of radius r > 0 and
    height > 0 and a direction d with |d|² ≥ ε², the point returned by
    getLocalSupportPointWithMargin is s + normalize(d)·r for one end s of the
    inner segment; it lies at distance exactly r from s, s is strictly the
    nearer of the two ends, and s is the end that
    getLocalSupportPointWithoutMargin returns. The binary64 program rounds,
    and none of the three holds of it for every input. *)
Theorem support_with_margin_correct
    (r height : R) (c : CapsuleShape R) (d : Vector3 R) :
  CapsuleShape.new r height = Some c ->
  Vector3.lengthSquare d >= eps * eps ->
  let p := CapsuleShape.getLocalSupportPointWithMargin c d in
  let u := Vector3.getUnit d in
  exists s other : Vector3 R,
    (s = mkVector3 0 (height / 2) 0 /\ other = mkVector3 0 (- (height / 2)) 0
     \/ s = mkVector3 0 (- (height / 2)) 0 /\ other = mkVector3 0 (height / 2) 0)
    /\ p = (s +v u *s r)%dec
    /\ distance p s = r
    /\ distance p s < distance p other
    /\ CapsuleShape.getLocalSupportPointWithoutMargin c d = s
    /\ p = (CapsuleShape.getLocalSupportPointWithoutMargin c d +v u *s r)%dec.
Proof.
  intros Hc Hd p u. subst p u.
  rewrite (withMargin_real r height c d Hc Hd), withoutMargin_real.
  pose proof (getUnit_norm d Hd) as Hu. cbv zeta in Hu.
  pose proof (getUnit_y_sign d Hd) as [Hpos Hneg].
  apply new_real in Hc as (Hr & Hh & ->).
  unfold topCenter, bottomCenter. cbn [mHalfHeight].
  set (u := Vector3.getUnit d) in *.
  destruct (Rgt_dec (y d) 0) as [Hy | Hy].
  - exists (mkVector3 0 (height / 2) 0), (mkVector3 0 (- (height / 2)) 0).
    rewrite distance_from_center by assumption.
    repeat split; auto.
    rewrite <- (sqrt_square r) at 1 by lra.
    unfold distance, Vector3.add, Vector3.scale. real_code.
    apply sqrt_lt_1_alt. specialize (Hpos Hy).
    replace ((0 + x u * r - 0) * (0 + x u * r - 0)
             + (height / 2 + y u * r - - (height / 2))
               * (height / 2 + y u * r - - (height / 2))
             + (0 + z u * r - 0) * (0 + z u * r - 0))
      with ((x u * x u + y u * y u + z u * z u) * (r * r)
            + height * height + 2 * height * (y u * r)) by field.
    rewrite Hu. assert (0 < y u * r) by (apply Rmult_lt_0_compat; lra). nra.
  - exists (mkVector3 0 (- (height / 2)) 0), (mkVector3 0 (height / 2) 0).
    rewrite distance_from_center by assumption.
    repeat split; auto.
    rewrite <- (sqrt_square r) at 1 by lra.
    unfold distance, Vector3.add, Vector3.scale. real_code.
    apply sqrt_lt_1_alt. assert (Hy' : y d <= 0) by lra. specialize (Hneg Hy').
    replace ((0 + x u * r - 0) * (0 + x u * r - 0)
             + (- (height / 2) + y u * r - height / 2)
               * (- (height / 2) + y u * r - height / 2)
             + (0 + z u * r - 0) * (0 + z u * r - 0))
      with ((x u * x u + y u * y u + z u * z u) * (r * r)
            + height * height + 2 * height * (- y u * r)) by field.
    rewrite Hu. assert (0 <= - y u * r) by (apply Rmult_le_pos; lra). nra.
Qed.

(** C2, as the code has it. For a capsule of radius r > 0 and height > 0
    and a direction d with |d|² ≥ ε² and d.y = 0, the two dot products are
    equal, the strict comparison fails and getLocalSupportPointWithMargin
    returns the point of the bottom sphere, (0,-h,0) + normalize(d)·r. *)
Theorem tie_returns_bottom_sphere
    (r height : R) (c : CapsuleShape R) (d : Vector3 R) :
  CapsuleShape.new r height = Some c ->
  Vector3.lengthSquare d >= eps * eps ->
  y d = 0 ->
  Vector3.dot (topCenter c +v Vector3.getUnit d *s r)%dec d
  = Vector3.dot (bottomCenter c +v Vector3.getUnit d *s r)%dec d
  /\ CapsuleShape.getLocalSupportPointWithMargin c d
     = (mkVector3 0 (- (height / 2)) 0 +v Vector3.getUnit d *s r)%dec.
Proof.
  intros Hc Hd Hy. split.
  - pose proof (dot_gap c d (Vector3.getUnit d)) as Hgap.
    apply new_real in Hc as (_ & _ & ->). cbn [mRadius] in Hgap.
    rewrite Hy in Hgap. lra.
  - rewrite (withMargin_real r height c d Hc Hd).
    apply new_real in Hc as (_ & _ & ->).
    destruct (Rgt_dec (y d) 0) as [Hpos | _]; [lra | reflexivity].
Qed.

Lemma decimal_twelfth : Q2R (1.0 / 12.0) = / 12.
Proof.
  change (1.0 / 12.0)%Q with (100 # 1200)%Q.
  unfold Q2R. cbn [Qnum Qden]. lra.
Qed.

Lemma spec_factors_pos (r height : R) :
  0 < r -> 0 < height ->
  0 < spec_factor1 r height /\ 0 < spec_factor2 r height.
Proof.
  intros Hr Hh. unfold spec_factor1, spec_factor2.
  split; apply Rdiv_lt_0_compat; lra.
Qed.

(** In exact arithmetic, without rounding: for radius r > 0, height > 0 and
    mass m > 0, computeLocalInertiaTensor overwrites the tensor with
    diag(Ixx, Iyy, Ixx), Ixx and Iyy being the composite
    cylinder-and-hemispheres formulas of the specification; the three diagonal
    entries are strictly positive and the six others are zero. In binary64 the
    diagonal can underflow to zero or overflow. *)
Theorem inertia_tensor_diagonal
    (r height m : R) (c : CapsuleShape R) (tensor : Matrix3x3 R) :
  CapsuleShape.new r height = Some c ->
  0 < m ->
  let T := CapsuleShape.computeLocalInertiaTensor c tensor m in
  T = mkMatrix3x3 (spec_Ixx r height m) 0 0
                  0 (spec_Iyy r height m) 0
                  0 0 (spec_Ixx r height m)
  /\ m00 T = m22 T
  /\ 0 < m00 T /\ 0 < m11 T /\ 0 < m22 T
  /\ m01 T = 0 /\ m02 T = 0 /\ m10 T = 0
  /\ m12 T = 0 /\ m20 T = 0 /\ m21 T = 0.
Proof.
  intros Hc Hm T.
  apply new_real in Hc as (Hr & Hh & ->).
  assert (HT : T = mkMatrix3x3 (spec_Ixx r height m) 0 0
                               0 (spec_Iyy r height m) 0
                               0 0 (spec_Ixx r height m)).
  { subst T. unfold CapsuleShape.computeLocalInertiaTensor, Matrix3x3.setAllValues.
    unfold spec_Ixx, spec_Iyy, spec_factor1, spec_factor2.
    cbn [decimal real_decimal]. rewrite decimal_twelfth.
    real_code. f_equal; field; lra. }
  destruct (spec_factors_pos r height Hr Hh) as [Hf1 Hf2].
  assert (Hrr : 0 < r * r) by (apply Rmult_lt_0_compat; assumption).
  assert (Hhh : 0 < height * height) by (apply Rmult_lt_0_compat; assumption).
  assert (Hhr : 0 < height * r) by (apply Rmult_lt_0_compat; assumption).
  assert (Hf1m : 0 < spec_factor1 r height * m)
    by (apply Rmult_lt_0_compat; assumption).
  assert (Hf2m : 0 < spec_factor2 r height * m)
    by (apply Rmult_lt_0_compat; assumption).
  assert (Hxx : 0 < spec_Ixx r height m).
  { unfold spec_Ixx. real_code.
    apply Rplus_lt_0_compat; apply Rmult_lt_0_compat; try assumption; lra. }
  assert (Hyy : 0 < spec_Iyy r height m).
  { unfold spec_Iyy. real_code.
    apply Rplus_lt_0_compat; (apply Rmult_lt_0_compat; [| lra]);
      (apply Rmult_lt_0_compat; [assumption | lra]). }
  rewrite HT. cbn [m00 m01 m02 m10 m11 m12 m20 m21 m22].
  repeat split; auto.
Qed.

(** C5. For every capsule of radius r and every direction d with |d|² < ε²,
    the zero direction among them, getLocalSupportPointWithMargin returns
    exactly (0, r, 0). *)
Theorem degenerate_direction (c : CapsuleShape R) :
  (forall d : Vector3 R,
      Vector3.lengthSquare d < eps * eps ->
      CapsuleShape.getLocalSupportPointWithMargin c d = mkVector3 0 (mRadius c) 0)
  /\ CapsuleShape.getLocalSupportPointWithMargin c (mkVector3 0 0 0)
     = mkVector3 0 (mRadius c) 0.
Proof.
  assert (Hdeg : forall d : Vector3 R,
             Vector3.lengthSquare d < eps * eps ->
             CapsuleShape.getLocalSupportPointWithMargin c d
             = mkVector3 0 (mRadius c) 0).
  { intros d Hd. rewrite withMargin_degenerate.
    - real_code. f_equal; lra.
    - real_code. apply Rgeb_false. exact Hd. }
  split; [exact Hdeg |].
  apply Hdeg. unfold Vector3.lengthSquare. real_code. nra.
Qed.

(** C6. For a capsule of half-height h, getLocalSupportPointWithoutMargin
    returns (0,+h,0) exactly when d.y is strictly positive and (0,-h,0)
    otherwise (d.y = 0 and the zero direction included); the direction is
    not normalised: only its Y component is read. *)
Theorem support_without_margin_selection
    (r height : R) (c : CapsuleShape R) (d : Vector3 R) :
  CapsuleShape.new r height = Some c ->
  let h := height / 2 in
  (CapsuleShape.getLocalSupportPointWithoutMargin c d = mkVector3 0 h 0
   <-> 0 < y d)
  /\ (y d <= 0 ->
      CapsuleShape.getLocalSupportPointWithoutMargin c d = mkVector3 0 (- h) 0)
  /\ CapsuleShape.getLocalSupportPointWithoutMargin c (mkVector3 0 0 0)
     = mkVector3 0 (- h) 0
  /\ (forall d' : Vector3 R,
         y d' = y d ->
         CapsuleShape.getLocalSupportPointWithoutMargin c d'
         = CapsuleShape.getLocalSupportPointWithoutMargin c d).
Proof.
  intros Hc h. subst h. apply new_real in Hc as (Hr & Hh & ->).
  rewrite !withoutMargin_real. unfold topCenter, bottomCenter.
  cbn [mHalfHeight x y z].
  repeat split.
  - destruct (Rgt_dec (y d) 0) as [Hy | Hy]; [lra |].
    intros Heq. injection Heq as Heq. lra.
  - intros Hy. destruct (Rgt_dec (y d) 0); [reflexivity | lra].
  - intros Hy. destruct (Rgt_dec (y d) 0); [lra | reflexivity].
  - destruct (Rgt_dec 0 0); [lra | reflexivity].
  - intros d' Hd'. rewrite !withoutMargin_real, Hd'. reflexivity.
Qed.

(** C7. The constructor aborts when radius ≤ 0 or height ≤ 0 and no object
    results; it returns an object exactly when radius > 0 and height > 0, and
    that object holds the radius and half the height, unclamped. *)
Theorem constructor_preconditions (radius height : R) :
  (radius <= 0 \/ height <= 0 -> CapsuleShape.new radius height = None)
  /\ (is_Some (CapsuleShape.new radius height) <-> 0 < radius /\ 0 < height)
  /\ (forall c : CapsuleShape R,
         CapsuleShape.new radius height = Some c ->
         0 < radius /\ 0 < height
         /\ mRadius c = radius /\ mHalfHeight c = height / 2
         /\ mMargin (shape c) = radius /\ mType (shape c) = CAPSULE).
Proof.
  split; [| split].
  - intros Hbad. apply new_None. real_code. rewrite !Rgtb_false. lra.
  - split.
    + intros [c Hc]. apply new_real in Hc. tauto.
    + intros [Hr Hh]. eexists. apply new_real. eauto.
  - intros c Hc. apply new_real in Hc as (Hr & Hh & ->).
    cbn [mRadius mHalfHeight mMargin mType shape]. auto 10.
Qed.

(** *** The capsule as a convex set *)

(** X3. The point returned without margin is a support point of the inner
    segment, for every direction: no point of the segment lies farther
    along d. *)
Theorem support_without_margin_maximal
    (r height : R) (c : CapsuleShape R) (d : Vector3 R) (t : R) :
  CapsuleShape.new r height = Some c ->
  - (height / 2) <= t <= height / 2 ->
  Vector3.dot (axisPoint t) d
  <= Vector3.dot (CapsuleShape.getLocalSupportPointWithoutMargin c d) d.
Proof.
  intros Hc Ht. rewrite withoutMargin_real.
  apply new_real in Hc as (Hr & Hh & ->).
  unfold axisPoint, topCenter, bottomCenter, Vector3.dot. real_code.
  destruct (Rgt_dec (y d) 0) as [Hy | Hy]; cbn [x y z]; nra.
Qed.

(** X5. For a direction with |d|² < ε² the returned point (0, r, 0) is not on
    the surface: some point of the inner segment is closer to it than the
    radius. *)
Theorem degenerate_point_interior
    (r height : R) (c : CapsuleShape R) (d : Vector3 R) :
  CapsuleShape.new r height = Some c ->
  Vector3.lengthSquare d < eps * eps ->
  exists t : R,
    - (height / 2) <= t <= height / 2
    /\ squaredDistance
         (CapsuleShape.getLocalSupportPointWithMargin c d) (axisPoint t)
       < r * r.
Proof.
  intros Hc Hd.
  rewrite withMargin_degenerate
    by (real_code; apply Rgeb_false; exact Hd).
  apply new_real in Hc as (Hr & Hh & ->).
  unfold squaredDistance, axisPoint. real_code.
  destruct (Rle_dec r (height / 2)) as [Hle | Hgt].
  - exists r. split; [lra | nra].
  - exists (height / 2). split; [lra | nra].
Qed.

(** The machine epsilon of a floating-point format is at most one. *)
Hypothesis eps_le_1 : eps <= 1.

Lemma unit_direction_regular (d : Vector3 R) :
  x d * x d + y d * y d + z d * z d = 1 ->
  Vector3.lengthSquare d >= eps * eps.
Proof. intros Hd. unfold Vector3.lengthSquare. real_code. nra. Qed.

Lemma unit_direction_getUnit (d : Vector3 R) :
  x d * x d + y d * y d + z d * z d = 1 -> Vector3.getUnit d = d.
Proof.
  intros Hd. unfold Vector3.getUnit, Vector3.length, Vector3.lengthSquare. real_code.
  rewrite Hd, sqrt_1. apply Vector3_eq; cbn [x y z]; lra.
Qed.

(** C4. The capsule constructed with radius 0.5 and height 2 has half-height
    1; its support points with margin along (0,1,0) and (0,-1,0) are
    (0,1.5,0) and (0,-1.5,0), and without margin (0,1,0) and (0,-1,0). *)
Theorem worked_example :
  exists c : CapsuleShape R,
    CapsuleShape.new 0.5 2 = Some c
    /\ mHalfHeight c = 1
    /\ CapsuleShape.getLocalSupportPointWithMargin c (mkVector3 0 1 0)
       = mkVector3 0 1.5 0
    /\ CapsuleShape.getLocalSupportPointWithMargin c (mkVector3 0 (-1) 0)
       = mkVector3 0 (-1.5) 0
    /\ CapsuleShape.getLocalSupportPointWithoutMargin c (mkVector3 0 1 0)
       = mkVector3 0 1 0
    /\ CapsuleShape.getLocalSupportPointWithoutMargin c (mkVector3 0 (-1) 0)
       = mkVector3 0 (-1) 0.
Proof.
  assert (Hnew : CapsuleShape.new 0.5 2
                 = Some (mkCapsuleShape (mkCollisionShape CAPSULE 0.5) 0.5 (2 / 2))).
  { apply new_real. real_code. repeat split; lra. }
  eexists. split; [exact Hnew |].
  rewrite (withMargin_real _ _ _ (mkVector3 0 1 0) Hnew)
    by (apply unit_direction_regular; cbn [x y z]; lra).
  rewrite (withMargin_real _ _ _ (mkVector3 0 (-1) 0) Hnew)
    by (apply unit_direction_regular; cbn [x y z]; lra).
  rewrite !withoutMargin_real.
  rewrite !unit_direction_getUnit by (cbn [x y z]; lra).
  cbn [y].
  destruct (Rgt_dec 1 0) as [_ | Hn]; [| lra].
  destruct (Rgt_dec (-1) 0) as [Hn | _]; [lra |].
  unfold topCenter, bottomCenter, Vector3.add, Vector3.scale. real_code.
  repeat split; try lra; f_equal; lra.
Qed.

End RealArithmetic.

(** ** Concrete runs over the reals *)

Lemma eps64_pos : (0 < eps64)%R.
Proof. unfold eps64. lra. Qed.

Lemma eps64_le_1 : (eps64 <= 1)%R.
Proof. unfold eps64. lra. Qed.

Section RealRuns.
#[local] Hint Extern 0 (Decimal R) =>
  exact (real_decimal eps64) : typeclass_instances.
Local Open Scope R_scope.

Lemma capsuleR_new : CapsuleShape.new (1 / 2) 2 = Some capsuleR.
Proof. apply (new_real eps64). unfold capsuleR. repeat split; lra. Qed.

Lemma regular_3_4_0 : Vector3.lengthSquare (mkVector3 3 4 0) >= eps64 * eps64.
Proof. unfold Vector3.lengthSquare, eps64. cbn. lra. Qed.

Lemma regular_1_0_0 : Vector3.lengthSquare (mkVector3 1 0 0) >= eps64 * eps64.
Proof. unfold Vector3.lengthSquare, eps64. cbn. lra. Qed.

Lemma support_with_margin_correct_witness :
  let c := capsuleR in
  let d := mkVector3 3 4 0 in
  let p := CapsuleShape.getLocalSupportPointWithMargin c d in
  let u := Vector3.getUnit d in
  exists s other : Vector3 R,
    (s = mkVector3 0 (2 / 2) 0 /\ other = mkVector3 0 (- (2 / 2)) 0
     \/ s = mkVector3 0 (- (2 / 2)) 0 /\ other = mkVector3 0 (2 / 2) 0)
    /\ p = (s +v u *s (1 / 2))%dec
    /\ distance p s = 1 / 2
    /\ distance p s < distance p other
    /\ CapsuleShape.getLocalSupportPointWithoutMargin c d = s
    /\ p = (CapsuleShape.getLocalSupportPointWithoutMargin c d +v u *s (1 / 2))%dec.
Proof.
  exact (support_with_margin_correct eps64 eps64_pos (1 / 2) 2 capsuleR
           (mkVector3 3 4 0) capsuleR_new regular_3_4_0).
Defined.

(** On a tie the code returns the bottom point: for radius 1/2, height 2 and
    d = (1,0,0) the result is (1/2,-1,0), not (0,1,0) + d·(1/2). *)
Lemma tie_prefers_top_counterexample :
  let c := capsuleR in
  let d := mkVector3 1 0 0 in
  CapsuleShape.new (1 / 2) 2 = Some c
  /\ Vector3.lengthSquare d >= eps64 * eps64
  /\ y d = 0
  /\ CapsuleShape.getLocalSupportPointWithMargin c d = mkVector3 (1 / 2) (-1) 0
  /\ CapsuleShape.getLocalSupportPointWithMargin c d
     <> (mkVector3 0 (2 / 2) 0 +v Vector3.getUnit d *s (1 / 2))%dec.
Proof.
  intros c d. subst c d.
  assert (Hrun : CapsuleShape.getLocalSupportPointWithMargin capsuleR (mkVector3 1 0 0)
                 = mkVector3 (1 / 2) (-1) 0).
  { rewrite (withMargin_real eps64 _ _ _ _ capsuleR_new regular_1_0_0).
    rewrite (unit_direction_getUnit eps64) by (cbn [x y z]; lra).
    cbn [y]. destruct (Rgt_dec 0 0) as [Hn | _]; [lra |].
    unfold bottomCenter, capsuleR, Vector3.add, Vector3.scale. cbn.
    f_equal; lra. }
  repeat split.
  - exact capsuleR_new.
  - exact regular_1_0_0.
  - exact Hrun.
  - rewrite Hrun, (unit_direction_getUnit eps64) by (cbn [x y z]; lra).
    unfold Vector3.add, Vector3.scale. cbn. intros Heq. injection Heq as _ Hy. lra.
Qed.

Lemma tie_returns_bottom_sphere_witness :
  let c := capsuleR in
  let d := mkVector3 1 0 0 in
  Vector3.dot (topCenter c +v Vector3.getUnit d *s (1 / 2))%dec d
  = Vector3.dot (bottomCenter c +v Vector3.getUnit d *s (1 / 2))%dec d
  /\ CapsuleShape.getLocalSupportPointWithMargin c d
     = (mkVector3 0 (- (2 / 2)) 0 +v Vector3.getUnit d *s (1 / 2))%dec.
Proof.
  exact (tie_returns_bottom_sphere eps64 (1 / 2) 2 capsuleR (mkVector3 1 0 0)
           capsuleR_new regular_1_0_0 eq_refl).
Defined.

Lemma inertia_tensor_diagonal_witness :
  let tensor := mkMatrix3x3 0 0 0 0 0 0 0 0 0 in
  let T := CapsuleShape.computeLocalInertiaTensor capsuleR tensor 1 in
  T = mkMatrix3x3 (spec_Ixx (1 / 2) 2 1) 0 0
                  0 (spec_Iyy (1 / 2) 2 1) 0
                  0 0 (spec_Ixx (1 / 2) 2 1)
  /\ m00 T = m22 T
  /\ 0 < m00 T /\ 0 < m11 T /\ 0 < m22 T
  /\ m01 T = 0 /\ m02 T = 0 /\ m10 T = 0
  /\ m12 T = 0 /\ m20 T = 0 /\ m21 T = 0.
Proof.
  intros tensor.
  exact (inertia_tensor_diagonal eps64 (1 / 2) 2 1 capsuleR tensor
           capsuleR_new Rlt_0_1).
Defined.

Lemma worked_example_witness :
  exists c : CapsuleShape R,
    CapsuleShape.new 0.5 2 = Some c
    /\ mHalfHeight c = 1
    /\ CapsuleShape.getLocalSupportPointWithMargin c (mkVector3 0 1 0)
       = mkVector3 0 1.5 0
    /\ CapsuleShape.getLocalSupportPointWithMargin c (mkVector3 0 (-1) 0)
       = mkVector3 0 (-1.5) 0
    /\ CapsuleShape.getLocalSupportPointWithoutMargin c (mkVector3 0 1 0)
       = mkVector3 0 1 0
    /\ CapsuleShape.getLocalSupportPointWithoutMargin c (mkVector3 0 (-1) 0)
       = mkVector3 0 (-1) 0.
Proof. exact (worked_example eps64 eps64_pos eps64_le_1). Defined.

Lemma degenerate_direction_witness :
  (forall d : Vector3 R,
      Vector3.lengthSquare d < eps64 * eps64 ->
      CapsuleShape.getLocalSupportPointWithMargin capsuleR d
      = mkVector3 0 (1 / 2) 0)
  /\ CapsuleShape.getLocalSupportPointWithMargin capsuleR (mkVector3 0 0 0)
     = mkVector3 0 (1 / 2) 0.
Proof. exact (degenerate_direction eps64 eps64_pos capsuleR). Defined.

Lemma support_without_margin_selection_witness :
  let c := capsuleR in
  let d := mkVector3 3 4 0 in
  let h := 2 / 2 in
  (CapsuleShape.getLocalSupportPointWithoutMargin c d = mkVector3 0 h 0
   <-> 0 < y d)
  /\ (y d <= 0 ->
      CapsuleShape.getLocalSupportPointWithoutMargin c d = mkVector3 0 (- h) 0)
  /\ CapsuleShape.getLocalSupportPointWithoutMargin c (mkVector3 0 0 0)
     = mkVector3 0 (- h) 0
  /\ (forall d' : Vector3 R,
         y d' = y d ->
         CapsuleShape.getLocalSupportPointWithoutMargin c d'
         = CapsuleShape.getLocalSupportPointWithoutMargin c d).
Proof.
  exact (support_without_margin_selection eps64 (1 / 2) 2 capsuleR
           (mkVector3 3 4 0) capsuleR_new).
Defined.

(** *** Instances of the properties of the capsule as a convex set *)

Lemma degenerate_0_0_0 :
  Vector3.lengthSquare (mkVector3 0 0 0) < eps64 * eps64.
Proof. unfold Vector3.lengthSquare, eps64. cbn. lra. Qed.

Lemma degenerate_point_interior_witness :
  exists t : R,
    - (2 / 2) <= t <= 2 / 2
    /\ squaredDistance
         (CapsuleShape.getLocalSupportPointWithMargin capsuleR
            (mkVector3 0 0 0))
         (axisPoint t)
       < 1 / 2 * (1 / 2).
Proof.
  exact (degenerate_point_interior eps64 (1 / 2) 2 capsuleR
           (mkVector3 0 0 0) capsuleR_new degenerate_0_0_0).
Defined.

Lemma inside_segment_0 : - (2 / 2) <= 0 <= 2 / 2.
Proof. lra. Qed.

Lemma support_without_margin_maximal_witness :
  Vector3.dot (axisPoint 0) (mkVector3 3 4 0)
  <= Vector3.dot
       (CapsuleShape.getLocalSupportPointWithoutMargin capsuleR
          (mkVector3 3 4 0))
       (mkVector3 3 4 0).
Proof.
  exact (support_without_margin_maximal eps64 (1 / 2) 2 capsuleR
           (mkVector3 3 4 0) 0 capsuleR_new inside_segment_0).
Defined.

End RealRuns.

(** ** The dynamics world *)

Section WorldProperties.
Context {D : Type} {arithmetic : Decimal D} {collaborators : Collaborators D}.

Lemma stopped_after_stop (w : DynamicsWorld D) :
  DynamicsWorld.state (DynamicsWorld.stop w) = Stopped.
Proof. reflexivity. Qed.

Lemma running_after_start (w : DynamicsWorld D) :
  DynamicsWorld.state (DynamicsWorld.start w) = Running.
Proof. reflexivity. Qed.

Lemma stopped_initially (gravity : Vector3 D) (timeStep : D) :
  DynamicsWorld.state (DynamicsWorld.new gravity timeStep) = Stopped.
Proof. reflexivity. Qed.

Lemma update_Stopped (w : DynamicsWorld D) :
  DynamicsWorld.state w = Stopped -> DynamicsWorld.update w = w.
Proof. intros Hs. unfold DynamicsWorld.update. now rewrite Hs. Qed.

Lemma update_Running (w : DynamicsWorld D) :
  DynamicsWorld.state w = Running ->
  DynamicsWorld.update w
  = DynamicsWorld.cleanupConstrainedVelocitiesArray
      (DynamicsWorld.updateSleepingBodies
         (DynamicsWorld.updateRigidBodiesPositionAndOrientation
            (DynamicsWorld.solveConstraints
               (DynamicsWorld.initConstrainedVelocitiesArray
                  (DynamicsWorld.applyGravity
                     (DynamicsWorld.resetBodiesMovementVariable
                        (DynamicsWorld.computeContacts w))))))).
Proof. intros Hs. unfold DynamicsWorld.update. now rewrite Hs. Qed.

(** C8. In the Stopped state update is a no-op: it returns, and what it
    returns is the world it was given, so every body (transform, velocities
    and the rest), the gravity, the contacts and the joints are the ones
    before the call, and the world is still Stopped. *)
Theorem update_stopped_noop (w : DynamicsWorld D) :
  DynamicsWorld.state w = Stopped ->
  DynamicsWorld.update w = w
  /\ (forall p : pointer,
        mRigidBodies (DynamicsWorld.update w) !! p = mRigidBodies w !! p)
  /\ DynamicsWorld.state (DynamicsWorld.update w) = Stopped.
Proof.
  intros Hs. rewrite (update_Stopped w Hs). auto.
Qed.

Ltac same_state_fields Hsame w1 w2 :=
  destruct Hsame as (Ht & Hcs & Hjs & Hd & Hb & Hm & Hj & Hg & Hon);
  destruct w1, w2;
  cbn [mTimer mContactSolver mConstraintSolver mIsDeactivationActive
       mRigidBodies mContactManifolds mJoints mGravity mIsGravityOn]
    in Ht, Hcs, Hjs, Hd, Hb, Hm, Hj, Hg, Hon;
  subst.

(** Steps 1 to 3 read and assign persisted attributes only. *)
Lemma computeContacts_same (w1 w2 : DynamicsWorld D) :
  same_simulation_state w1 w2 ->
  same_simulation_state (DynamicsWorld.computeContacts w1)
                        (DynamicsWorld.computeContacts w2).
Proof.
  intros Hsame. same_state_fields Hsame w1 w2.
  unfold same_simulation_state. cbn. auto 12.
Qed.

Lemma resetBodiesMovementVariable_same (w1 w2 : DynamicsWorld D) :
  same_simulation_state w1 w2 ->
  same_simulation_state (DynamicsWorld.resetBodiesMovementVariable w1)
                        (DynamicsWorld.resetBodiesMovementVariable w2).
Proof.
  intros Hsame. same_state_fields Hsame w1 w2.
  unfold same_simulation_state. cbn. auto 12.
Qed.

Lemma applyGravity_same (w1 w2 : DynamicsWorld D) :
  same_simulation_state w1 w2 ->
  same_simulation_state (DynamicsWorld.applyGravity w1)
                        (DynamicsWorld.applyGravity w2).
Proof.
  intros Hsame. same_state_fields Hsame w1 w2.
  unfold same_simulation_state, DynamicsWorld.applyGravity.
  cbn [mIsGravityOn].
  match goal with |- context [if ?on then _ else _] => destruct on end;
    cbn; auto 12.
Qed.

(** Step 4 overwrites the scratch with values computed from the persisted
    attributes: whatever an earlier step left there is gone. *)
Lemma initConstrainedVelocitiesArray_same (w1 w2 : DynamicsWorld D) :
  same_simulation_state w1 w2 ->
  DynamicsWorld.initConstrainedVelocitiesArray w1
  = DynamicsWorld.initConstrainedVelocitiesArray w2.
Proof.
  intros Hsame. same_state_fields Hsame w1 w2. reflexivity.
Qed.

(** While Running, update does not read the scratch arrays that an earlier
    step left: they are rebuilt before the solvers run. *)
Lemma update_running_ignores_scratch (w1 w2 : DynamicsWorld D) :
  same_simulation_state w1 w2 ->
  DynamicsWorld.state w1 = Running ->
  DynamicsWorld.update w1 = DynamicsWorld.update w2.
Proof.
  intros Hsame Hrun.
  assert (Hrun2 : DynamicsWorld.state w2 = Running).
  { unfold DynamicsWorld.state in *. destruct Hsame as (<- & _). exact Hrun. }
  rewrite (update_Running w1 Hrun), (update_Running w2 Hrun2).
  rewrite (initConstrainedVelocitiesArray_same
             (DynamicsWorld.applyGravity
                (DynamicsWorld.resetBodiesMovementVariable (DynamicsWorld.computeContacts w1)))
             (DynamicsWorld.applyGravity
                (DynamicsWorld.resetBodiesMovementVariable (DynamicsWorld.computeContacts w2)))).
  - reflexivity.
  - apply applyGravity_same, resetBodiesMovementVariable_same,
      computeContacts_same, Hsame.
Qed.

(** C10. start and stop assign the timer only: every other attribute of the
    world, the bodies and their state among them, is the one before the call,
    and the four read accessors return what they returned before. *)
Theorem start_stop_frame (w : DynamicsWorld D) :
  let started := DynamicsWorld.start w in
  let stopped := DynamicsWorld.stop w in
  (same_but_timer w started
   /\ DynamicsWorld.getGravity started = DynamicsWorld.getGravity w
   /\ DynamicsWorld.getIsGravityOn started = DynamicsWorld.getIsGravityOn w
   /\ DynamicsWorld.getNbRigidBodies started
      = DynamicsWorld.getNbRigidBodies w
   /\ DynamicsWorld.getNbContactManifolds started
      = DynamicsWorld.getNbContactManifolds w)
  /\ (same_but_timer w stopped
      /\ DynamicsWorld.getGravity stopped = DynamicsWorld.getGravity w
      /\ DynamicsWorld.getIsGravityOn stopped = DynamicsWorld.getIsGravityOn w
      /\ DynamicsWorld.getNbRigidBodies stopped
         = DynamicsWorld.getNbRigidBodies w
      /\ DynamicsWorld.getNbContactManifolds stopped
         = DynamicsWorld.getNbContactManifolds w).
Proof.
  unfold same_but_timer. split; repeat split; reflexivity.
Qed.

(** *** The setters, the accessors and the loop over the bodies *)

(** X15. The flag written by setIsGratityOn is the one getIsGravityOn reads; the
    last write wins; the gravity vector, the bodies, the contacts and the
    timer are left alone. *)
Theorem setIsGratityOn_getIsGravityOn
    (w : DynamicsWorld D) (isGravityOn again : bool) :
  let w' := DynamicsWorld.setIsGratityOn w isGravityOn in
  DynamicsWorld.getIsGravityOn w' = isGravityOn
  /\ DynamicsWorld.setIsGratityOn w' again
     = DynamicsWorld.setIsGratityOn w again
  /\ DynamicsWorld.getGravity w' = DynamicsWorld.getGravity w
  /\ DynamicsWorld.getNbRigidBodies w' = DynamicsWorld.getNbRigidBodies w
  /\ DynamicsWorld.getNbContactManifolds w'
     = DynamicsWorld.getNbContactManifolds w
  /\ mRigidBodies w' = mRigidBodies w
  /\ mTimer w' = mTimer w.
Proof. cbv zeta. repeat split; reflexivity. Qed.

(** The three setters of the solver configuration assign mContactSolver
    only. *)
Theorem solver_setters_frame
    (w : DynamicsWorld D) (nbIterations : uint) (isActive : bool) :
  same_but_contact_solver w
    (DynamicsWorld.setNbIterationsSolver w nbIterations)
  /\ same_but_contact_solver w
       (DynamicsWorld.setIsSplitImpulseActive w isActive)
  /\ same_but_contact_solver w
       (DynamicsWorld.setIsSolveFrictionAtContactManifoldCenterActive
          w isActive).
Proof. unfold same_but_contact_solver. repeat split; reflexivity. Qed.

(** The two counts are below 2^32, and they are the sizes of the containers
    whenever those sizes are below 2^32; an empty world counts zero. *)
Theorem body_and_manifold_counts (w : DynamicsWorld D) :
  (0 <= DynamicsWorld.getNbRigidBodies w < 2 ^ 32)%Z
  /\ (0 <= DynamicsWorld.getNbContactManifolds w < 2 ^ 32)%Z
  /\ ((Z.of_nat (size (mRigidBodies w)) < 2 ^ 32)%Z ->
      DynamicsWorld.getNbRigidBodies w = Z.of_nat (size (mRigidBodies w)))
  /\ ((Z.of_nat (List.length (mContactManifolds w)) < 2 ^ 32)%Z ->
      DynamicsWorld.getNbContactManifolds w
      = Z.of_nat (List.length (mContactManifolds w)))
  /\ (mRigidBodies w = ∅ -> DynamicsWorld.getNbRigidBodies w = 0%Z)
  /\ (mContactManifolds w = [] ->
      DynamicsWorld.getNbContactManifolds w = 0%Z).
Proof.
  unfold DynamicsWorld.getNbRigidBodies, DynamicsWorld.getNbContactManifolds,
    uint_of_size.
  repeat split.
  - apply Z.mod_pos_bound. lia.
  - apply Z.mod_pos_bound. lia.
  - apply Z.mod_pos_bound. lia.
  - apply Z.mod_pos_bound. lia.
  - intros Hsmall. apply Z.mod_small. lia.
  - intros Hsmall. apply Z.mod_small. lia.
  - intros ->. rewrite map_size_empty. reflexivity.
  - intros ->. reflexivity.
Qed.

(** X16. After resetBodiesMovementVariable, a body found in the world has its
    "has moved" flag false, and it is the body that was at that address
    before, with the same transform, velocities and sleeping state. *)
Theorem resetBodiesMovementVariable_bodies
    (w : DynamicsWorld D) (p : pointer) (body' : RigidBody D) :
  mRigidBodies (DynamicsWorld.resetBodiesMovementVariable w) !! p
  = Some body' ->
  mHasMoved body' = false
  /\ exists body : RigidBody D,
       mRigidBodies w !! p = Some body
       /\ mTransform body' = mTransform body
       /\ mLinearVelocity body' = mLinearVelocity body
       /\ mAngularVelocity body' = mAngularVelocity body
       /\ mIsSleeping body' = mIsSleeping body
       /\ mMass body' = mMass body.
Proof.
  unfold DynamicsWorld.resetBodiesMovementVariable.
  cbn [mRigidBodies DynamicsWorld.set_mRigidBodies].
  rewrite lookup_fmap. intros Hp.
  destruct (mRigidBodies w !! p) as [body |] eqn:Hb; [| discriminate].
  cbn in Hp. injection Hp as <-.
  split; [reflexivity |]. exists body. repeat split; reflexivity.
Qed.

Lemma setHasMoved_twice (body : RigidBody D) (a b : bool) :
  RigidBody.setHasMoved (RigidBody.setHasMoved body a) b
  = RigidBody.setHasMoved body b.
Proof. reflexivity. Qed.

(** X17. resetBodiesMovementVariable neither adds nor removes a body, changes no
    other attribute of the world, and doing it twice is doing it once. *)
Theorem resetBodiesMovementVariable_frame (w : DynamicsWorld D) :
  let w' := DynamicsWorld.resetBodiesMovementVariable w in
  dom (mRigidBodies w') = dom (mRigidBodies w)
  /\ DynamicsWorld.getNbRigidBodies w' = DynamicsWorld.getNbRigidBodies w
  /\ DynamicsWorld.getNbContactManifolds w'
     = DynamicsWorld.getNbContactManifolds w
  /\ DynamicsWorld.getGravity w' = DynamicsWorld.getGravity w
  /\ DynamicsWorld.getIsGravityOn w' = DynamicsWorld.getIsGravityOn w
  /\ mTimer w' = mTimer w
  /\ DynamicsWorld.resetBodiesMovementVariable w' = w'.
Proof.
  cbv zeta. unfold DynamicsWorld.resetBodiesMovementVariable.
  cbn [mRigidBodies DynamicsWorld.set_mRigidBodies].
  repeat split; try reflexivity.
  - apply dom_fmap_L.
  - unfold DynamicsWorld.getNbRigidBodies.
    cbn [mRigidBodies DynamicsWorld.set_mRigidBodies].
    now rewrite map_size_fmap.
  - unfold DynamicsWorld.set_mRigidBodies. cbn [mRigidBodies]. f_equal.
    rewrite <- map_fmap_compose. apply map_fmap_ext.
    intros q body _. apply setHasMoved_twice.
Qed.

(** The keys of a map, in the order of its traversal, are distinct and are
    the keys at which the map holds something. *)
Lemma traversal_NoDup (w : DynamicsWorld D) :
  NoDup (DynamicsWorld.rigidBodiesTraversal w).
Proof. apply NoDup_fst_map_to_list. Qed.

Lemma traversal_elem_of (w : DynamicsWorld D) (p : pointer) :
  p ∈ DynamicsWorld.rigidBodiesTraversal w <-> is_Some (mRigidBodies w !! p).
Proof.
  unfold DynamicsWorld.rigidBodiesTraversal. rewrite list_elem_of_fmap. split.
  - intros ([q body] & -> & Hin). apply elem_of_map_to_list in Hin.
    cbn. eauto.
  - intros [body Hb]. exists (p, body). split; [reflexivity |].
    now apply elem_of_map_to_list.
Qed.

Lemma range_begin_end (w : DynamicsWorld D) :
  DynamicsWorld.rigidBodiesRange w
    (DynamicsWorld.getRigidBodiesBeginIterator w)
    (DynamicsWorld.getRigidBodiesEndIterator w)
  = DynamicsWorld.rigidBodiesTraversal w.
Proof.
  unfold DynamicsWorld.rigidBodiesRange,
    DynamicsWorld.getRigidBodiesBeginIterator,
    DynamicsWorld.getRigidBodiesEndIterator.
  rewrite drop_0, Nat.sub_0_r. apply firstn_all.
Qed.

Lemma foldl_alter_lookup
    (f : RigidBody D -> RigidBody D) (l : list pointer)
    (bodies : gmap pointer (RigidBody D)) (p : pointer) :
  NoDup l ->
  foldl (fun m it => alter f it m) bodies l !! p
  = if decide (p ∈ l) then f <$> bodies !! p else bodies !! p.
Proof.
  revert bodies. induction l as [| q l IH]; intros bodies Hnd.
  - cbn. destruct (decide (p ∈ [])) as [Hin | _]; [| reflexivity].
    now apply elem_of_nil in Hin.
  - apply NoDup_cons in Hnd as [Hq Hnd]. cbn [foldl].
    rewrite (IH _ Hnd).
    destruct (decide (p ∈ l)) as [Hin | Hnin].
    + assert (Hne : q <> p) by (intros ->; contradiction).
      rewrite lookup_alter_ne by exact Hne.
      destruct (decide (p ∈ q :: l)) as [_ | Hn]; [reflexivity |].
      exfalso. apply Hn. now right.
    + destruct (decide (q = p)) as [-> | Hne].
      * rewrite lookup_alter_eq.
        destruct (decide (p ∈ p :: l)) as [_ | Hn]; [reflexivity |].
        exfalso. apply Hn. now left.
      * rewrite lookup_alter_ne by exact Hne.
        destruct (decide (p ∈ q :: l)) as [Hin | _]; [| reflexivity].
        apply elem_of_cons in Hin as [-> | Hin]; contradiction.
Qed.

(** X18. The loop of the header, from the begin iterator to the end iterator,
    reaches every body of the world exactly once: it computes the world in
    which setHasMoved(false) has been applied to each body. *)
Theorem resetBodiesMovementVariable_loop_correct (w : DynamicsWorld D) :
  DynamicsWorld.resetBodiesMovementVariable_loop w
  = DynamicsWorld.resetBodiesMovementVariable w.
Proof.
  unfold DynamicsWorld.resetBodiesMovementVariable_loop,
    DynamicsWorld.resetBodiesMovementVariable.
  f_equal. rewrite range_begin_end. apply map_eq. intros p.
  rewrite (foldl_alter_lookup _ _ _ _ (traversal_NoDup w)), lookup_fmap.
  destruct (decide (p ∈ DynamicsWorld.rigidBodiesTraversal w)) as [_ | Hn];
    [reflexivity |].
  destruct (mRigidBodies w !! p) as [body |] eqn:Hb; [| reflexivity].
  exfalso. apply Hn, traversal_elem_of. rewrite Hb. eauto.
Qed.

End WorldProperties.

Section OverlappingPairProperties.
Context {BroadPhasePair OverlappingPair : Type}.
Variable getBodiesIndexPair : BroadPhasePair -> bodyindex * bodyindex.
Variable OverlappingPair_update : OverlappingPair -> OverlappingPair.

(** X19. updateOverlappingPair fails exactly when the world holds no pair for the
    two bodies; otherwise the contact cache of that pair is updated and no
    pair is added, removed or otherwise changed. *)
Theorem updateOverlappingPair_known_pair
    (pairs : gmap (bodyindex * bodyindex) OverlappingPair)
    (pair : BroadPhasePair) :
  let key := getBodiesIndexPair pair in
  let result :=
    DynamicsWorld.updateOverlappingPair getBodiesIndexPair
      OverlappingPair_update pairs pair in
  (result = None <-> pairs !! key = None)
  /\ forall pairs' : gmap (bodyindex * bodyindex) OverlappingPair,
       result = Some pairs' ->
       dom pairs' = dom pairs
       /\ pairs' !! key = OverlappingPair_update <$> pairs !! key
       /\ forall other : bodyindex * bodyindex,
            other <> key -> pairs' !! other = pairs !! other.
Proof.
  cbv zeta. unfold DynamicsWorld.updateOverlappingPair.
  destruct (pairs !! getBodiesIndexPair pair) as [op |] eqn:Hk; cbn.
  - split; [split; discriminate |].
    intros pairs' [= <-]. repeat split.
    + apply dom_insert_lookup_L. eauto.
    + apply lookup_insert_eq.
    + intros other Hne. apply lookup_insert_ne. congruence.
  - split; [split; reflexivity |]. discriminate.
Qed.

End OverlappingPairProperties.

(** ** Runs of the world in binary64 *)

Section WorldRuns.
#[local] Existing Instance freeFlight.

(** One step: the ball gets v = g·dt, then y = 10 + v·dt; the ground stays
    where it is; the scratch arrays are empty again. *)
Example binary64_free_fall :
  let w := DynamicsWorld.update (DynamicsWorld.start ballWorld) in
  mRigidBodies w !! 1%positive
  = Some (mkRigidBody (f64 1) (f64 1) identity3x3
            (mkTransform (v3 0 7.5 0) noRotation)
            (v3 0 (-5) 0) (v3 0 0 0) true false (f64 0) true)
  /\ mRigidBodies w !! 2%positive = Some ground
  /\ DynamicsWorld.getNbRigidBodies w = 2%Z
  /\ DynamicsWorld.getNbContactManifolds w = 1%Z
  /\ mConstrainedLinearVelocities w = []
  /\ mMapBodyToConstrainedVelocityIndex w = ∅.
Proof. vm_compute. repeat split; reflexivity. Qed.

(** The scratch that step 4 builds for that world, whatever was left in it:
    both bodies are touched by the manifold and get the dense indices 0 and
    1, in the traversal order of the map of bodies. *)
Example binary64_scratch :
  let w := DynamicsWorld.initConstrainedVelocitiesArray
             (DynamicsWorld.applyGravity
                (DynamicsWorld.start ballWorldStale)) in
  mConstrainedBodies w = {[ 1%positive; 2%positive ]}
  /\ mConstrainedLinearVelocities w = [v3 0 0 0; v3 0 (-5) 0]
  /\ mMapBodyToConstrainedVelocityIndex w !! 2%positive = Some 0%nat
  /\ mMapBodyToConstrainedVelocityIndex w !! 1%positive = Some 1%nat
  /\ mMapBodyToConstrainedVelocityIndex w !! 7%positive = None.
Proof. vm_compute. repeat split; reflexivity. Qed.

(** Without start, nothing moves. *)
Example binary64_stopped : DynamicsWorld.update ballWorld = ballWorld.
Proof. reflexivity. Qed.

Lemma ballWorlds_same_state :
  same_simulation_state (DynamicsWorld.start ballWorld)
                        (DynamicsWorld.start ballWorldStale).
Proof. unfold same_simulation_state. cbn. auto 12. Qed.

Lemma update_stopped_noop_witness :
  let w := DynamicsWorld.stop (DynamicsWorld.start ballWorld) in
  DynamicsWorld.state w = Stopped
  /\ DynamicsWorld.update w = w
  /\ (forall p : pointer,
        mRigidBodies (DynamicsWorld.update w) !! p = mRigidBodies w !! p)
  /\ DynamicsWorld.state (DynamicsWorld.update w) = Stopped.
Proof.
  intros w. split; [reflexivity |].
  apply (update_stopped_noop w). reflexivity.
Defined.

(** After one step the ball has moved; the reset clears its flag and keeps
    the rest. *)
Lemma resetBodiesMovementVariable_bodies_witness :
  let w := DynamicsWorld.update (DynamicsWorld.start ballWorld) in
  let body' :=
    mkRigidBody (f64 1) (f64 1) identity3x3
      (mkTransform (v3 0 7.5 0) noRotation)
      (v3 0 (-5) 0) (v3 0 0 0) true false (f64 0) false in
  mRigidBodies (DynamicsWorld.resetBodiesMovementVariable w) !! 1%positive
  = Some body'
  /\ mHasMoved body' = false
  /\ exists body : RigidBody float,
       mRigidBodies w !! 1%positive = Some body
       /\ mTransform body' = mTransform body
       /\ mLinearVelocity body' = mLinearVelocity body
       /\ mAngularVelocity body' = mAngularVelocity body
       /\ mIsSleeping body' = mIsSleeping body
       /\ mMass body' = mMass body.
Proof.
  intros w body'.
  assert (Hfound :
            mRigidBodies (DynamicsWorld.resetBodiesMovementVariable w)
            !! 1%positive = Some body')
    by (vm_compute; reflexivity).
  split; [exact Hfound |].
  exact (resetBodiesMovementVariable_bodies w 1%positive body' Hfound).
Defined.

(** The loop and the overlapping pairs on small inputs. *)
Example binary64_reset_loop :
  let w := DynamicsWorld.update (DynamicsWorld.start ballWorld) in
  (mHasMoved <$> mRigidBodies w) !! 1%positive = Some true
  /\ (mHasMoved
        <$> mRigidBodies (DynamicsWorld.resetBodiesMovementVariable_loop w))
     !! 1%positive = Some false.
Proof. vm_compute. split; reflexivity. Qed.

Example overlapping_pair_runs :
  let pairs : gmap (bodyindex * bodyindex) nat := {[ (1%N, 2%N) := 7%nat ]} in
  DynamicsWorld.updateOverlappingPair (fun pair => pair) S pairs (1%N, 2%N)
  = Some {[ (1%N, 2%N) := 8%nat ]}
  /\ DynamicsWorld.updateOverlappingPair (fun pair => pair) S pairs (2%N, 1%N)
     = None.
Proof. vm_compute. split; reflexivity. Qed.

End WorldRuns.
